(** * The Lex fulfilment handler of the Bedrock / LangChain agent example

    A shallow embedding of [agent/lambda/agent-handler/lambda_function.py].

    The handler is glue code between three services: the Lex dialog service
    that sends the event, the LangChain agent (or the Bedrock runtime) that
    answers, and the Kendra index that retrieves passages.  Python values are
    embedded as a small JSON-like datatype, Python exceptions as an error
    type, and the calls to the services as a log kept by a state-and-error
    monad.  The services themselves, and the library functions [json.dumps],
    [json.loads] and [repr], are fields of a [Platform] record: every theorem
    holds whatever they answer. *)

From Stdlib Require Import String Ascii ZArith List Bool Lia.
From Stdlib Require Import PrimFloat SpecFloat FloatOps.
From Stdlib Require Import DecimalString.
Import ListNotations.
Local Open Scope list_scope.
Local Open Scope string_scope.

(** ** Python values, exceptions and the built-in operations the handler uses *)

Module Py.

(** The values an event, a service response or a response envelope is made of.
    A [dict] keeps its items in insertion order, as Python's does; every key
    the handler meets is a [str]. *)
#[warnings="-register-all"]
Inductive pyval : Type :=
| PNone
| PBool (b : bool)
| PInt (n : Z)
| PFloat (x : float)
| PStr (s : string)
| PList (items : list pyval)
| PDict (items : list (string * pyval)).

(** The exceptions of an invocation.  [ValueError cls msg] is an instance of
    [ValueError] or of its subclass [cls] whose [str] is [msg]: the instances an
    [except ValueError] clause catches.  [OtherError] is any exception outside
    that hierarchy and outside the three built-in ones named here. *)
Inductive exn : Type :=
| KeyError (key : string)
| TypeError (msg : string)
| AttributeError (msg : string)
| ValueError (cls : string) (msg : string)
| OtherError (cls : string) (msg : string).

Inductive result (A : Type) : Type :=
| Ok (a : A)
| Raise (e : exn).

Arguments Ok {A} a.
Arguments Raise {A} e.

(** The line feed that Python writes as a backslash followed by [n]. *)
Definition nl : string := String "010"%char EmptyString.

(** *** [str] methods *)

(** [s.startswith(p)] *)
Fixpoint startswith (s p : string) {struct p} : bool :=
  match p with
  | EmptyString => true
  | String c p' =>
      match s with
      | EmptyString => false
      | String d s' => Ascii.eqb d c && startswith s' p'
      end
  end.

(** [s[n:]] *)
Fixpoint drop (n : nat) (s : string) : string :=
  match n, s with
  | O, _ => s
  | S _, EmptyString => EmptyString
  | S n', String _ s' => drop n' s'
  end.

(** [s[:n]] *)
Fixpoint take (n : nat) (s : string) : string :=
  match n, s with
  | O, _ => EmptyString
  | S _, EmptyString => EmptyString
  | S n', String c s' => String c (take n' s')
  end.

(** [s.endswith(p)] *)
Definition endswith (s p : string) : bool :=
  (String.length p <=? String.length s)%nat
  && String.eqb (drop (String.length s - String.length p) s) p.

(** [s.removeprefix(p)]: [s[len(p):]] when [s] starts with [p], else [s]. *)
Definition removeprefix (s p : string) : string :=
  if startswith s p then drop (String.length p) s else s.

(** [s.removesuffix(p)]: [s[:-len(p)]] when [p] is not empty and [s] ends
    with it, else [s]. *)
Definition removesuffix (s p : string) : string :=
  if negb (String.eqb p "") && endswith s p
  then take (String.length s - String.length p) s
  else s.

(** [p in s] for two strings. *)
Fixpoint str_contains (s p : string) : bool :=
  startswith s p
  || match s with
     | EmptyString => false
     | String _ s' => str_contains s' p
     end.

(** *** Comparison and truth value *)

(** [v == s] for a [str] literal [s]: only an equal [str] compares equal. *)
Definition eq_str (v : pyval) (s : string) : bool :=
  match v with
  | PStr t => String.eqb t s
  | _ => false
  end.

(** [bool(v)] *)
Definition truthy (v : pyval) : bool :=
  match v with
  | PNone => false
  | PBool b => b
  | PInt n => negb (Z.eqb n 0)
  | PFloat x => negb (PrimFloat.eqb x 0%float)
  | PStr s => negb (String.eqb s "")
  | PList items => match items with [] => false | _ :: _ => true end
  | PDict items => match items with [] => false | _ :: _ => true end
  end.

(** [a or b] *)
Definition py_or (a b : pyval) : pyval := if truthy a then a else b.

(** *** Subscription, [get], item assignment and membership *)

Fixpoint assoc (k : string) (d : list (string * pyval)) : option pyval :=
  match d with
  | [] => None
  | (k', v) :: d' => if String.eqb k' k then Some v else assoc k d'
  end.

(** The items of a dict after [d[k] = v]: an existing key keeps its place, a
    new one goes last. *)
Fixpoint assoc_set (k : string) (v : pyval) (d : list (string * pyval))
  : list (string * pyval) :=
  match d with
  | [] => [(k, v)]
  | (k', v') :: d' =>
      if String.eqb k' k then (k, v) :: d' else (k', v') :: assoc_set k v d'
  end.

(** [o[k]] with a [str] key [k]. *)
Definition getitem (o : pyval) (k : string) : result pyval :=
  match o with
  | PDict d =>
      match assoc k d with
      | Some v => Ok v
      | None => Raise (KeyError k)
      end
  | PList _ => Raise (TypeError "list indices must be integers or slices, not str")
  | PStr _ => Raise (TypeError "string indices must be integers")
  | _ => Raise (TypeError "object is not subscriptable")
  end.

(** [o.get(k)] *)
Definition get (o : pyval) (k : string) : result pyval :=
  match o with
  | PDict d =>
      match assoc k d with
      | Some v => Ok v
      | None => Ok PNone
      end
  | _ => Raise (AttributeError "object has no attribute 'get'")
  end.

(** [o[k] = v] with a [str] key [k]; the result is [o] after the assignment. *)
Definition setitem (o : pyval) (k : string) (v : pyval) : result pyval :=
  match o with
  | PDict d => Ok (PDict (assoc_set k v d))
  | PList _ => Raise (TypeError "list indices must be integers or slices, not str")
  | _ => Raise (TypeError "object does not support item assignment")
  end.

(** [k in o] with a [str] [k]. *)
Definition contains (k : string) (o : pyval) : result bool :=
  match o with
  | PDict d => Ok (match assoc k d with Some _ => true | None => false end)
  | PList items => Ok (existsb (fun v => eq_str v k) items)
  | PStr s => Ok (str_contains s k)
  | _ => Raise (TypeError "argument is not iterable")
  end.

(** [o[k1][k2]...], used to read a field of an envelope. *)
Fixpoint getpath (o : pyval) (ks : list string) : result pyval :=
  match ks with
  | [] => Ok o
  | k :: ks' =>
      match getitem o k with
      | Ok v => getpath v ks'
      | Raise e => Raise e
      end
  end.

(** A container [o] whose item [k] is the object [v]: after an assignment
    inside [v], the same [o], seen through its reference to [v]. *)
Definition with_item (o : pyval) (k : string) (v : pyval) : pyval :=
  match o with
  | PDict d => PDict (assoc_set k v d)
  | _ => o
  end.

End Py.

Import Py.

(** ** The services and the monad of an invocation *)

(** A call that leaves the process, or a change to its environment, in the
    order the handler makes them. *)
Inductive call : Type :=
| AgentRun (model_id : string) (model_kwargs : list (string * pyval))
           (input : string)
| KendraRetrieve (IndexId QueryText : string) (PageNumber PageSize : Z)
| InvokeModel (body modelId accept contentType : string)
| SetEnviron (key value : string)
| Tzset.

(** What the handler is given by its surroundings.

    [agent_run] stands for [FSIAgent(llm, chat.memory).run(input=...)]: the
    classes [Chat] and [FSIAgent] live in other modules of the repository, and
    the agent is an LLM behind a parser, so its answer is taken as it comes:
    a text, or an exception.  Building [Chat], [Bedrock] and [FSIAgent]
    objects is taken to succeed and to call nothing.

    [bedrock_invoke_model] answers with the bytes read from the response's
    [body] stream. *)
Record Platform : Type := {
  agent_run : string -> list (string * pyval) -> string -> result string;
  kendra_retrieve : string -> string -> Z -> Z -> result pyval;
  bedrock_invoke_model : string -> string -> string -> string -> result string;
  json_dumps : pyval -> string;
  json_loads : string -> result pyval;
  py_repr : pyval -> string
}.

(** A computation of the handler: it reads the log of the calls made so far,
    extends it, and ends with a value or with an exception. *)
Definition M (A : Type) : Type := list call -> result A * list call.

Definition ret {A : Type} (a : A) : M A := fun log => (Ok a, log).

Definition raise {A : Type} (e : exn) : M A := fun log => (Raise e, log).

Definition bind {A B : Type} (m : M A) (f : A -> M B) : M B :=
  fun log =>
    match m log with
    | (Ok a, log') => f a log'
    | (Raise e, log') => (Raise e, log')
    end.

(** A built-in operation: no call, a value or an exception. *)
Definition lift {A : Type} (r : result A) : M A := fun log => (r, log).

(** A call [c] whose answer is [r]. *)
Definition perform {A : Type} (c : call) (r : result A) : M A :=
  fun log => (r, (log ++ [c])%list).

(** [try: m  except ValueError as e: h e msg], with [msg = str(e)] at hand. *)
Definition try_except_ValueError {A : Type} (m : M A) (h : exn -> string -> M A)
  : M A :=
  fun log =>
    match m log with
    | (Raise (ValueError cls msg), log') => h (ValueError cls msg) msg log'
    | other => other
    end.

Declare Scope py_scope.
Delimit Scope py_scope with py.
Notation "x <- c1 ;; c2" := (bind c1 (fun x => c2))
  (at level 61, c1 at next level, right associativity) : py_scope.
Local Open Scope py_scope.

(** ** The handler *)

Section Handler.

Variable pf : Platform.

(** [str(v)] as an f-string field or [format] computes it: a [str] is itself,
    any other value of [pyval] prints as its [repr]. *)
Definition py_str (v : pyval) : string :=
  match v with
  | PStr s => s
  | _ => py_repr pf v
  end.

(** [a + b] with a [str] on the left. *)
Definition str_add (a : string) (b : pyval) : result string :=
  match b with
  | PStr s => Ok (a ++ s)
  | _ => Raise (TypeError "can only concatenate str to str")
  end.

(** [lex_format_response(event, response_text)].  The first statement assigns
    inside the event; the envelope then reads the intent back from it.  The
    result is the event after the assignment, and the envelope. *)
Definition lex_format_response (event response_text : pyval)
  : M (pyval * pyval) :=
  sessionState <- lift (getitem event "sessionState") ;;
  intent <- lift (getitem sessionState "intent") ;;
  intent <- lift (setitem intent "state" (PStr "Fulfilled")) ;;
  let event :=
    with_item event "sessionState" (with_item sessionState "intent" intent) in
  sessionState <- lift (getitem event "sessionState") ;;
  intent <- lift (getitem sessionState "intent") ;;
  sessionId <- lift (getitem event "sessionId") ;;
  present <- lift (contains "requestAttributes" event) ;;
  requestAttributes <-
    (if present : bool then lift (getitem event "requestAttributes")
     else ret PNone) ;;
  ret (event,
       PDict [
         ("sessionState", PDict [
            ("sessionAttributes", PDict [("history", PStr "none")]);
            ("dialogAction", PDict [("type", PStr "Close")]);
            ("intent", intent)]);
         ("messages", PList [
            PDict [("contentType", PStr "PlainText");
                   ("content", response_text)]]);
         ("sessionId", sessionId);
         ("requestAttributes", requestAttributes)]).

(** [elicit_intent(intent_request, session_attributes, message)] *)
Definition elicit_intent (intent_request session_attributes message : pyval)
  : pyval :=
  PDict [
    ("sessionState", PDict [
       ("dialogAction", PDict [("type", PStr "ElicitIntent")]);
       ("sessionAttributes", session_attributes)]);
    ("messages", PList [
       PDict [("contentType", PStr "PlainText");
              ("content", message)];
       PDict [("contentType", PStr "ImageResponseCard");
              ("imageResponseCard", PDict [
                 ("buttons", PList [
                    PDict [("text", PStr "Loan Application");
                           ("value", PStr "Loan Application")];
                    PDict [("text", PStr "Loan Calculator");
                           ("value", PStr "Loan Calculator")];
                    PDict [("text", PStr "Ask GenAI");
                           ("value", PStr "What kind of questions can the Assistant answer?")]]);
                 ("title", PStr "How can I help you?")])]])].

(** [invoke_fm(prompt)] *)
Definition invoke_fm (prompt : pyval) : M pyval :=
  let model_id := "anthropic.claude-v2" in
  let model_kwargs := [("max_tokens_to_sample", PInt 350)] in
  human <- lift (str_add (nl ++ nl ++ "Human: ") prompt) ;;
  let formatted_prompt := human ++ " " ++ nl ++ nl ++ "Assistant:" in
  message <-
    try_except_ValueError
      (perform (AgentRun model_id model_kwargs formatted_prompt)
               (agent_run pf model_id model_kwargs formatted_prompt))
      (fun e message =>
         if negb (startswith message "Could not parse LLM output:")
         then raise e
         else ret (removesuffix
                     (removeprefix message "Could not parse LLM output: `")
                     "`")) ;;
  ret (PStr message).

(** [genai_intent(intent_request)]; a function that ends without [return]
    returns [None]. *)
Definition genai_intent (intent_request : pyval) : M pyval :=
  sessionState <- lift (getitem intent_request "sessionState") ;;
  attributes <- lift (get sessionState "sessionAttributes") ;;
  let session_attributes := py_or attributes (PDict []) in
  invocationSource <- lift (getitem intent_request "invocationSource") ;;
  if eq_str invocationSource "DialogCodeHook" then
    prompt <- lift (getitem intent_request "inputTranscript") ;;
    output <- invoke_fm prompt ;;
    ret (elicit_intent intent_request session_attributes output)
  else ret PNone.

(** The f-string of [invoke_llm], with its two fields. *)
Definition prompt_data (question context : string) : string :=
  String.concat nl [
    ""; "";
    "Human:    ";
    "Answer the following question in a manner andonly if it can be answered from the Kendra index created.";
    "Do not include information that is not relevant to the question.";
    "Only provide information based on the data available with you and do not make assumptions";
    "Avoid all the non related questions to Echo business";
    "Use the provided examples as reference";
    "###";
    "Here is an example";
    "<example>";
    "Question: What is Kendra";
    "Assistant: I dont know";
    "</example>";
    "###";
    "###";
    "Here is an example";
    "<example>";
    "Question: Give me the list of all available wiki documents?";
    "Assistant: Sure, Let me search and collect the information";
    "</example>";
    "###";
    "###";
    "Here is an example";
    "<example>";
    "Question: How many different documents do you have?";
    "Assistant: 500+";
    "</example>";
    "###";
    "Question: How many different authors do you find?";
    "Assistant: I dont know";
    "";
    "Question: " ++ question;
    "";
    "Context: " ++ context;
    "";
    "###";
    "";
    ""; "";
    "Assistant:";
    "";
    ""].

(** The dict that [invoke_llm] gives to [json.dumps]. *)
Definition request_body (prompt : string) : pyval :=
  PDict [("prompt", PStr prompt);
         ("max_tokens_to_sample", PInt 8191);
         ("temperature", PInt 0);
         ("top_k", PInt 250);
         ("top_p", PFloat 0.5%float);
         ("stop_sequences", PList [])].

(** [invoke_llm(intent_request, kendra_response)] *)
Definition invoke_llm (intent_request kendra_response : pyval) : M pyval :=
  let modelId := "anthropic.claude-v2" in
  let accept := "application/json" in
  let contentType := "application/json" in
  let body :=
    json_dumps pf
      (request_body (prompt_data (py_str intent_request)
                                 (py_str kendra_response))) in
  raw <- perform (InvokeModel body modelId accept contentType)
                 (bedrock_invoke_model pf body modelId accept contentType) ;;
  response_body <- lift (json_loads pf raw) ;;
  answer <- lift (get response_body "completion") ;;
  ret answer.

(** [kendra_search(intent_request)] *)
Definition kendra_search (intent_request : pyval) : M pyval :=
  let index_id := "823fed26-38f9-490a-bdfc-d89e19f95a63" in
  kendra_response <-
    perform (KendraRetrieve index_id "get me wiki" 1 15)
            (kendra_retrieve pf index_id "get me wiki" 1 15) ;;
  invoke_llm intent_request kendra_response.

(** [handler(event, context)]: the value returned to Lex. *)
Definition handler (event context : pyval) : M pyval :=
  user_input <- lift (getitem event "inputTranscript") ;;
  response_text <-
    (if eq_str user_input "" then kendra_search user_input
     else genai_intent event) ;;
  _ <- perform (SetEnviron "TZ" "America/New_York") (Ok tt) ;;
  _ <- perform Tzset (Ok tt) ;;
  formatted <- lex_format_response event response_text ;;
  ret (snd formatted).

End Handler.

(** ** The events Lex sends *)

(** The inbound event of the dialog service: a JSON object with a [str]
    [inputTranscript], a [str] [invocationSource], a [sessionId], and a
    [sessionState] object that holds an [intent] object.
    [sessionState.sessionAttributes] and [requestAttributes] may be absent. *)
Definition lex_event (event : pyval) : bool :=
  match event with
  | PDict items =>
      match assoc "inputTranscript" items, assoc "invocationSource" items,
            assoc "sessionId" items, assoc "sessionState" items with
      | Some (PStr _), Some (PStr _), Some (PStr _), Some (PDict state) =>
          match assoc "intent" state with
          | Some (PDict _) => true
          | _ => false
          end
      | _, _, _, _ => false
      end
  | _ => false
  end.

(** The message blocks of an envelope that are plain text. *)
Definition is_plain_text (block : pyval) : bool :=
  match getitem block "contentType" with
  | Ok contentType => eq_str contentType "PlainText"
  | Raise _ => false
  end.

(** The texts of the buttons of a card, in order. *)
Definition button_texts (buttons : list pyval) : list (result pyval) :=
  map (fun button => getitem button "text") buttons.

(** The calls of a log that reach a language model, through the agent or
    through the Bedrock runtime. *)
Definition is_llm_call (c : call) : bool :=
  match c with
  | AgentRun _ _ _ => true
  | InvokeModel _ _ _ _ => true
  | _ => false
  end.

(** ** A platform to run the handler on

    Printers for the values of [pyval] that follow [json.dumps] and [repr] on
    ASCII text, and services that answer with fixed values.  The examples,
    and nothing else, run on them. *)

Module Reference.

Definition dq : string := String "034"%char EmptyString.
Definition sq : string := String "039"%char EmptyString.
Definition backslash : string := String "092"%char EmptyString.

Definition str_of_Z (n : Z) : string := NilZero.string_of_int (Z.to_int n).

Definition hex_digit (n : nat) : string :=
  String.substring n 1 "0123456789abcdef".

Definition hex2 (n : nat) : string :=
  hex_digit (Nat.div n 16) ++ hex_digit (Nat.modulo n 16).

Fixpoint strip_leading_zeros (s : string) : string :=
  match s with
  | String "0"%char s' => strip_leading_zeros s'
  | _ => s
  end.

Fixpoint rev_string (s acc : string) : string :=
  match s with
  | EmptyString => acc
  | String c s' => rev_string s' (String c acc)
  end.

Definition strip_trailing_zeros (s : string) : string :=
  rev_string (strip_leading_zeros (rev_string s "")) "".

(** The positional decimal text of [m * 2^e]: what [repr] prints for a float
    with at most 15 significant decimal digits and a magnitude between
    [1e-4] and [1e16], such as [0.5]. *)
Definition decimal_of_dyadic (m e : Z) : string :=
  if (0 <=? e)%Z then str_of_Z (m * 2 ^ e) ++ ".0"
  else
    let k := (- e)%Z in
    let num := (m * 5 ^ k)%Z in
    let whole := (num / 10 ^ k)%Z in
    let frac := (num mod 10 ^ k)%Z in
    let digits := strip_trailing_zeros (drop 1 (str_of_Z (10 ^ k + frac))) in
    str_of_Z whole ++ "." ++ (if String.eqb digits "" then "0" else digits).

Definition float_text (inf nan : string) (x : float) : string :=
  match Prim2SF x with
  | S754_zero s => if s then "-0.0" else "0.0"
  | S754_infinity s => if s then "-" ++ inf else inf
  | S754_nan => nan
  | S754_finite s m e =>
      (if s then "-" else "") ++ decimal_of_dyadic (Z.pos m) e
  end.

(** *** [json.dumps] *)

Definition json_escape (c : ascii) : string :=
  let n := nat_of_ascii c in
  if Nat.eqb n 34 then backslash ++ dq
  else if Nat.eqb n 92 then backslash ++ backslash
  else if Nat.eqb n 10 then backslash ++ "n"
  else if Nat.eqb n 13 then backslash ++ "r"
  else if Nat.eqb n 9 then backslash ++ "t"
  else if Nat.eqb n 8 then backslash ++ "b"
  else if Nat.eqb n 12 then backslash ++ "f"
  else if Nat.ltb n 32 then backslash ++ "u00" ++ hex2 n
  else String c EmptyString.

Fixpoint json_escape_all (s : string) : string :=
  match s with
  | EmptyString => EmptyString
  | String c s' => json_escape c ++ json_escape_all s'
  end.

Definition json_string (s : string) : string := dq ++ json_escape_all s ++ dq.

Fixpoint dumps (v : pyval) : string :=
  match v with
  | PNone => "null"
  | PBool b => if b then "true" else "false"
  | PInt n => str_of_Z n
  | PFloat x => float_text "Infinity" "NaN" x
  | PStr s => json_string s
  | PList items => "[" ++ String.concat ", " (map dumps items) ++ "]"
  | PDict items =>
      "{" ++ String.concat ", "
               (map (fun '(k, x) => json_string k ++ ": " ++ dumps x) items)
          ++ "}"
  end.

(** *** [repr] *)

Definition repr_escape (quote : ascii) (c : ascii) : string :=
  let n := nat_of_ascii c in
  if Ascii.eqb c quote then backslash ++ String c EmptyString
  else if Nat.eqb n 92 then backslash ++ backslash
  else if Nat.eqb n 10 then backslash ++ "n"
  else if Nat.eqb n 13 then backslash ++ "r"
  else if Nat.eqb n 9 then backslash ++ "t"
  else if Nat.ltb n 32 || Nat.eqb n 127 then backslash ++ "x" ++ hex2 n
  else String c EmptyString.

Fixpoint repr_escape_all (quote : ascii) (s : string) : string :=
  match s with
  | EmptyString => EmptyString
  | String c s' => repr_escape quote c ++ repr_escape_all quote s'
  end.

Definition repr_string (s : string) : string :=
  if str_contains s sq && negb (str_contains s dq)
  then dq ++ repr_escape_all "034"%char s ++ dq
  else sq ++ repr_escape_all "039"%char s ++ sq.

Fixpoint repr (v : pyval) : string :=
  match v with
  | PNone => "None"
  | PBool b => if b then "True" else "False"
  | PInt n => str_of_Z n
  | PFloat x => float_text "inf" "nan" x
  | PStr s => repr_string s
  | PList items => "[" ++ String.concat ", " (map repr items) ++ "]"
  | PDict items =>
      "{" ++ String.concat ", "
               (map (fun '(k, x) => repr_string k ++ ": " ++ repr x) items)
          ++ "}"
  end.

(** *** Services with fixed answers *)

(** The body the Bedrock runtime answers with in the examples, and the one of
    an answer without a completion. *)
Definition completion_body : string :=
  "{" ++ json_string "completion" ++ ": " ++ json_string "I dont know" ++ "}".

Definition empty_body : string := "{}".

(** [json.loads] on the two bodies above; any other text is taken for
    malformed JSON, which [json.loads] reports with a [JSONDecodeError], a
    subclass of [ValueError]. *)
Definition loads (raw : string) : result pyval :=
  if String.eqb raw completion_body
  then Ok (PDict [("completion", PStr "I dont know")])
  else if String.eqb raw empty_body then Ok (PDict [])
  else Raise (ValueError "JSONDecodeError"
                         "Expecting value: line 1 column 1 (char 0)").

Definition passages : pyval :=
  PDict [("QueryId", PStr "q-1");
         ("ResultItems", PList [
            PDict [("Id", PStr "r-1");
                   ("DocumentTitle", PStr "Echo wiki");
                   ("Content", PStr "Echo keeps its wiki in one index.")]])].

(** A platform whose agent answers with [agent] and whose Bedrock runtime
    answers every request with the body [llm_body]. *)
Definition platform (agent : string -> result string) (llm_body : string)
  : Platform :=
  {| agent_run := fun _ _ input => agent input;
     kendra_retrieve := fun _ _ _ _ => Ok passages;
     bedrock_invoke_model := fun _ _ _ _ => Ok llm_body;
     json_dumps := dumps;
     json_loads := loads;
     py_repr := repr |}.

(** The platform of the two end-to-end scenarios: the agent answers [42], the
    model answers with [completion_body]. *)
Definition mock : Platform := platform (fun _ => Ok "42") completion_body.

(** An event with the utterance [transcript] from the source [source]. *)
Definition event_of (transcript source : string) : pyval :=
  PDict [("inputTranscript", PStr transcript);
         ("invocationSource", PStr source);
         ("sessionId", PStr "session-1");
         ("sessionState", PDict [
            ("sessionAttributes", PDict [("customer", PStr "c-7")]);
            ("intent", PDict [("name", PStr "FallbackIntent");
                              ("state", PStr "InProgress")])])].

Definition loan_event : pyval :=
  event_of "What is my loan balance?" "DialogCodeHook".

Definition search_event : pyval := event_of "" "DialogCodeHook".

Definition fulfilment_event : pyval :=
  event_of "What is my loan balance?" "FulfillmentCodeHook".

End Reference.


(** ** Platforms whose services fail, and events that lack fields *)

Module Faults.

(** [pf] with an index that answers every query with [r]. *)
Definition with_retrieve (pf : Platform) (r : result pyval) : Platform :=
  {| agent_run := agent_run pf;
     kendra_retrieve := fun _ _ _ _ => r;
     bedrock_invoke_model := bedrock_invoke_model pf;
     json_dumps := json_dumps pf;
     json_loads := json_loads pf;
     py_repr := py_repr pf |}.

(** [pf] with a model that answers every request with [r]. *)
Definition with_model (pf : Platform) (r : result string) : Platform :=
  {| agent_run := agent_run pf;
     kendra_retrieve := kendra_retrieve pf;
     bedrock_invoke_model := fun _ _ _ _ => r;
     json_dumps := json_dumps pf;
     json_loads := json_loads pf;
     py_repr := py_repr pf |}.

(** [pf] with a [json.loads] that answers [r] on every text. *)
Definition with_loads (pf : Platform) (r : result pyval) : Platform :=
  {| agent_run := agent_run pf;
     kendra_retrieve := kendra_retrieve pf;
     bedrock_invoke_model := bedrock_invoke_model pf;
     json_dumps := json_dumps pf;
     json_loads := fun _ => r;
     py_repr := py_repr pf |}.

(** [pf] with an agent that answers every prompt with [r]. *)
Definition with_agent (pf : Platform) (r : result string) : Platform :=
  {| agent_run := fun _ _ _ => r;
     kendra_retrieve := kendra_retrieve pf;
     bedrock_invoke_model := bedrock_invoke_model pf;
     json_dumps := json_dumps pf;
     json_loads := json_loads pf;
     py_repr := py_repr pf |}.

Definition throttled : exn :=
  OtherError "ClientError" "An error occurred (ThrottlingException)".

(** An event that holds an utterance and nothing else. *)
Definition bare_event (transcript : string) : pyval :=
  PDict [("inputTranscript", PStr transcript)].

(** An event of Lex without session attributes, and with request
    attributes. *)
Definition attributed_event : pyval :=
  PDict [("inputTranscript", PStr "What is my loan balance?");
         ("invocationSource", PStr "DialogCodeHook");
         ("sessionId", PStr "session-2");
         ("requestAttributes", PDict [("channel", PStr "web")]);
         ("sessionState", PDict [
            ("intent", PDict [("name", PStr "FallbackIntent");
                              ("slots", PDict []);
                              ("state", PStr "InProgress")])])].

(** The loan event of the reference platform after
    [lex_format_response], and the envelope built around [txt] for it. *)
Definition marked_loan_event : pyval :=
  PDict [("inputTranscript", PStr "What is my loan balance?");
         ("invocationSource", PStr "DialogCodeHook");
         ("sessionId", PStr "session-1");
         ("sessionState", PDict [
            ("sessionAttributes", PDict [("customer", PStr "c-7")]);
            ("intent", PDict [("name", PStr "FallbackIntent");
                              ("state", PStr "Fulfilled")])])].

Definition loan_envelope (txt : pyval) : pyval :=
  PDict [
    ("sessionState", PDict [
       ("sessionAttributes", PDict [("history", PStr "none")]);
       ("dialogAction", PDict [("type", PStr "Close")]);
       ("intent", PDict [("name", PStr "FallbackIntent");
                         ("state", PStr "Fulfilled")])]);
    ("messages", PList [
       PDict [("contentType", PStr "PlainText"); ("content", txt)]]);
    ("sessionId", PStr "session-1");
    ("requestAttributes", PNone)].

End Faults.

(** ** Names for the parts of an invocation *)

(** The envelope that [lex_format_response] builds around [response_text] for
    an event whose intent, once marked, is [intent]. *)
Definition close_envelope (intent sessionId requestAttributes response_text : pyval)
  : pyval :=
  PDict [
    ("sessionState", PDict [
       ("sessionAttributes", PDict [("history", PStr "none")]);
       ("dialogAction", PDict [("type", PStr "Close")]);
       ("intent", intent)]);
    ("messages", PList [
       PDict [("contentType", PStr "PlainText");
              ("content", response_text)]]);
    ("sessionId", sessionId);
    ("requestAttributes", requestAttributes)].

(** An intent after [intent['state'] = "Fulfilled"]. *)
Definition fulfilled (intent : list (string * pyval)) : pyval :=
  PDict (assoc_set "state" (PStr "Fulfilled") intent).

(** [d.get(k)] on the items of a dict. *)
Definition item_or_None (k : string) (items : list (string * pyval)) : pyval :=
  match assoc k items with
  | Some v => v
  | None => PNone
  end.

(** The two changes to the process environment that precede the envelope. *)
Definition timezone_calls : list call :=
  [SetEnviron "TZ" "America/New_York"; Tzset].

(** The prompt the agent is run on for the utterance [t]. *)
Definition agent_prompt (t : string) : string :=
  nl ++ nl ++ "Human: " ++ t ++ " " ++ nl ++ nl ++ "Assistant:".

Definition agent_call (t : string) : call :=
  AgentRun "anthropic.claude-v2" [("max_tokens_to_sample", PInt 350)]
           (agent_prompt t).

Definition retrieve_call : call :=
  KendraRetrieve "823fed26-38f9-490a-bdfc-d89e19f95a63" "get me wiki" 1 15.

Section Answers.

Variable pf : Platform.

(** What the agent answers to the utterance [t]. *)
Definition agent_answer (t : string) : result string :=
  agent_run pf "anthropic.claude-v2" [("max_tokens_to_sample", PInt 350)]
            (agent_prompt t).

(** What the index answers to the one query the handler makes. *)
Definition retrieve_answer : result pyval :=
  kendra_retrieve pf "823fed26-38f9-490a-bdfc-d89e19f95a63" "get me wiki" 1 15.

(** The serialized request of [invoke_llm] for a question and a context. *)
Definition llm_body (question context : pyval) : string :=
  json_dumps pf
    (request_body (prompt_data (py_str pf question) (py_str pf context))).

Definition llm_call (question context : pyval) : call :=
  InvokeModel (llm_body question context)
              "anthropic.claude-v2" "application/json" "application/json".

(** What the Bedrock runtime answers to that request. *)
Definition llm_answer (question context : pyval) : result string :=
  bedrock_invoke_model pf (llm_body question context)
    "anthropic.claude-v2" "application/json" "application/json".

End Answers.

(** The calls of a log that query the index, whatever their arguments. *)
Definition is_retrieve (c : call) : bool :=
  match c with
  | KendraRetrieve _ _ _ _ => true
  | _ => false
  end.

(** The calls of a log that run the agent, whatever the prompt. *)
Definition is_agent_run (c : call) : bool :=
  match c with
  | AgentRun _ _ _ => true
  | _ => false
  end.

(** A platform whose agent fails with an exception that is not a
    [ValueError] and whose message has the form of a parse failure. *)
Definition runtime_error_platform : Platform :=
  {| agent_run := fun _ _ _ =>
       Raise (OtherError "RuntimeError"
                "Could not parse LLM output: `Your balance is 42`");
     kendra_retrieve := kendra_retrieve Reference.mock;
     bedrock_invoke_model := bedrock_invoke_model Reference.mock;
     json_dumps := json_dumps Reference.mock;
     json_loads := json_loads Reference.mock;
     py_repr := py_repr Reference.mock |}.

(** A computation that calls nothing: it leaves the log as it found it. *)
Definition quiet {A : Type} (m : M A) : Prop :=
  forall log : list call, snd (m log) = log.

(** The calls one path of the handler may make: none, one run of the agent,
    one query of the index, or one query of the index followed by one request
    to the model. *)
Definition path_calls (calls : list call) : bool :=
  match calls with
  | [] => true
  | [AgentRun _ _ _] => true
  | [KendraRetrieve _ _ _ _] => true
  | [KendraRetrieve _ _ _ _; InvokeModel _ _ _ _] => true
  | _ => false
  end.

(** The event after the assignment of [lex_format_response], when its session
    state is [state] and its intent is [intent]. *)
Definition marked_event (items state intent : list (string * pyval)) : pyval :=
  PDict (assoc_set "sessionState"
           (PDict (assoc_set "intent" (fulfilled intent) state)) items).

Ltac step :=
  unfold bind, lift, ret, raise, perform;
  cbn [getitem get setitem with_item contains].

(** ** Facts about the built-in operations *)

Section StrFacts.

Lemma startswith_append (p s : string) : startswith (p ++ s) p = true.
Proof.
  induction p as [| c p IH]; simpl.
  - reflexivity.
  - rewrite Ascii.eqb_refl. exact IH.
Qed.

Lemma drop_length_append (p s : string) : drop (String.length p) (p ++ s) = s.
Proof.
  induction p as [| c p IH]; simpl.
  - reflexivity.
  - exact IH.
Qed.

Lemma take_length_append (s p : string) : take (String.length s) (s ++ p) = s.
Proof.
  induction s as [| c s IH]; simpl.
  - reflexivity.
  - now rewrite IH.
Qed.

Lemma length_append (s p : string) :
  String.length (s ++ p) = (String.length s + String.length p)%nat.
Proof.
  induction s as [| c s IH]; simpl.
  - reflexivity.
  - now rewrite IH.
Qed.

Lemma removeprefix_append (p s : string) : removeprefix (p ++ s) p = s.
Proof.
  unfold removeprefix.
  now rewrite startswith_append, drop_length_append.
Qed.

Lemma endswith_append (s p : string) : endswith (s ++ p) p = true.
Proof.
  unfold endswith.
  rewrite length_append.
  replace (String.length s + String.length p - String.length p)%nat
    with (String.length s) by lia.
  rewrite drop_length_append, String.eqb_refl.
  apply andb_true_iff; split; [apply Nat.leb_le; lia | reflexivity].
Qed.

Lemma removesuffix_append (s p : string) :
  p <> "" -> removesuffix (s ++ p) p = s.
Proof.
  intros Hp. unfold removesuffix.
  apply String.eqb_neq in Hp. rewrite Hp, endswith_append. simpl.
  rewrite length_append.
  replace (String.length s + String.length p - String.length p)%nat
    with (String.length s) by lia.
  apply take_length_append.
Qed.

End StrFacts.

Section DictFacts.

Lemma assoc_set_same (k : string) (v : pyval) (d : list (string * pyval)) :
  assoc k (assoc_set k v d) = Some v.
Proof.
  induction d as [| [k' v'] d IH]; simpl.
  - now rewrite String.eqb_refl.
  - destruct (String.eqb k' k) eqn:E; simpl.
    + now rewrite String.eqb_refl.
    + now rewrite E.
Qed.

Lemma assoc_set_other (k k' : string) (v : pyval) (d : list (string * pyval)) :
  k <> k' -> assoc k' (assoc_set k v d) = assoc k' d.
Proof.
  intros Hk.
  induction d as [| [k0 v0] d IH]; simpl.
  - apply String.eqb_neq in Hk. now rewrite Hk.
  - destruct (String.eqb k0 k) eqn:E; simpl.
    + apply String.eqb_eq in E. subst k0.
      apply String.eqb_neq in Hk. now rewrite Hk.
    + now rewrite IH.
Qed.

(** What [lex_event] says of an event, field by field. *)
Lemma lex_event_fields (event : pyval) :
  lex_event event = true ->
  exists items transcript source session state intent,
    event = PDict items
    /\ assoc "inputTranscript" items = Some (PStr transcript)
    /\ assoc "invocationSource" items = Some (PStr source)
    /\ assoc "sessionId" items = Some (PStr session)
    /\ assoc "sessionState" items = Some (PDict state)
    /\ assoc "intent" state = Some (PDict intent).
Proof.
  destruct event as [| | | | | |items]; try discriminate.
  unfold lex_event.
  destruct (assoc "inputTranscript" items) as [[| | | |t| |]|] eqn:Ht;
    try discriminate.
  destruct (assoc "invocationSource" items) as [[| | | |s| |]|] eqn:Hs;
    try discriminate.
  destruct (assoc "sessionId" items) as [[| | | |i| |]|] eqn:Hi;
    try discriminate.
  destruct (assoc "sessionState" items) as [[| | | | | |st]|] eqn:Hst;
    try discriminate.
  destruct (assoc "intent" st) as [[| | | | | |it]|] eqn:Hit; try discriminate.
  intros _. exists items, t, s, i, st, it. repeat split; assumption.
Qed.

End DictFacts.

(** ** The steps of an invocation *)

Lemma lex_format_response_fields
  (items state intent : list (string * pyval)) (session txt : pyval)
  (log : list call) :
  assoc "sessionId" items = Some session ->
  assoc "sessionState" items = Some (PDict state) ->
  assoc "intent" state = Some (PDict intent) ->
  exists event',
    lex_format_response (PDict items) txt log
    = (Ok (event',
           close_envelope (fulfilled intent) session
             (item_or_None "requestAttributes" items) txt), log).
Proof.
  intros Hid Hstate Hintent.
  eexists. unfold lex_format_response. step.
  rewrite Hstate. step. rewrite Hintent. step.
  rewrite assoc_set_same. step. rewrite assoc_set_same.
  rewrite !(assoc_set_other "sessionState") by discriminate.
  rewrite Hid. unfold item_or_None.
  destruct (assoc "requestAttributes" items) as [v |]; reflexivity.
Qed.

Lemma fulfilled_state (intent : list (string * pyval)) :
  getitem (fulfilled intent) "state" = Ok (PStr "Fulfilled").
Proof.
  unfold fulfilled. cbn [getitem]. now rewrite assoc_set_same.
Qed.

Section Steps.

Variable pf : Platform.

(** [invoke_fm] on a [str]: one run of the agent, then the [except] clause. *)
Lemma invoke_fm_str (t : string) (log : list call) :
  invoke_fm pf (PStr t) log
  = match agent_answer pf t with
    | Ok message => (Ok (PStr message), (log ++ [agent_call t])%list)
    | Raise (ValueError cls message) =>
        if startswith message "Could not parse LLM output:"
        then (Ok (PStr (removesuffix
                          (removeprefix message "Could not parse LLM output: `")
                          "`")),
              (log ++ [agent_call t])%list)
        else (Raise (ValueError cls message), (log ++ [agent_call t])%list)
    | Raise e => (Raise e, (log ++ [agent_call t])%list)
    end.
Proof.
  unfold invoke_fm, agent_answer, agent_call, agent_prompt.
  unfold try_except_ValueError, str_add. step.
  change (((nl ++ nl ++ "Human: ") ++ t) ++ " " ++ nl ++ nl ++ "Assistant:")
    with (nl ++ nl ++ "Human: " ++ t ++ " " ++ nl ++ nl ++ "Assistant:").
  destruct (agent_run pf _ _ _) as [message | e]; [reflexivity |].
  destruct e as [k | m | m | cls m | cls m]; try reflexivity.
  destruct (startswith m _); reflexivity.
Qed.

(** [genai_intent] on an event from the dialog code hook: the answer of
    [invoke_fm], inside an elicit-intent response. *)
Lemma genai_intent_dialog
  (items state : list (string * pyval)) (t : string) (log : list call) :
  assoc "inputTranscript" items = Some (PStr t) ->
  assoc "invocationSource" items = Some (PStr "DialogCodeHook") ->
  assoc "sessionState" items = Some (PDict state) ->
  genai_intent pf (PDict items) log
  = match invoke_fm pf (PStr t) log with
    | (Ok output, log') =>
        (Ok (elicit_intent (PDict items)
               (py_or (item_or_None "sessionAttributes" state) (PDict []))
               output), log')
    | (Raise e, log') => (Raise e, log')
    end.
Proof.
  intros Ht Hsrc Hstate.
  unfold genai_intent. step. rewrite Hstate. step.
  assert (Hattrs : (match assoc "sessionAttributes" state with
                    | Some v => Ok v
                    | None => Ok PNone
                    end) = Ok (item_or_None "sessionAttributes" state)).
  { unfold item_or_None. now destruct (assoc "sessionAttributes" state). }
  rewrite Hattrs, Hsrc.
  change (eq_str (PStr "DialogCodeHook") "DialogCodeHook") with true.
  cbv iota. rewrite Ht.
  destruct (invoke_fm pf (PStr t) log) as [[output | e] log']; reflexivity.
Qed.

(** [genai_intent] on an event from any other source: [None], and no call. *)
Lemma genai_intent_other_source
  (items state : list (string * pyval)) (source : pyval) (log : list call) :
  assoc "invocationSource" items = Some source ->
  eq_str source "DialogCodeHook" = false ->
  assoc "sessionState" items = Some (PDict state) ->
  genai_intent pf (PDict items) log = (Ok PNone, log).
Proof.
  intros Hsrc Hne Hstate.
  unfold genai_intent. step. rewrite Hstate. step.
  destruct (assoc "sessionAttributes" state); rewrite Hsrc, Hne; reflexivity.
Qed.

Lemma invoke_llm_steps (question context : pyval) (log : list call) :
  invoke_llm pf question context log
  = (match llm_answer pf question context with
     | Ok raw =>
         match json_loads pf raw with
         | Ok response_body => get response_body "completion"
         | Raise e => Raise e
         end
     | Raise e => Raise e
     end, (log ++ [llm_call pf question context])%list).
Proof.
  unfold invoke_llm, llm_answer, llm_call, llm_body. step.
  destruct (bedrock_invoke_model pf _ _ _ _) as [raw | e]; [| reflexivity].
  destruct (json_loads pf raw) as [response_body | e]; [| reflexivity].
  destruct (get response_body "completion"); reflexivity.
Qed.

Lemma kendra_search_steps (question : pyval) (log : list call) :
  kendra_search pf question log
  = match retrieve_answer pf with
    | Ok passages => invoke_llm pf question passages (log ++ [retrieve_call])%list
    | Raise e => (Raise e, (log ++ [retrieve_call])%list)
    end.
Proof.
  unfold kendra_search, retrieve_answer, retrieve_call. step.
  destruct (kendra_retrieve pf _ _ _ _); reflexivity.
Qed.

(** The handler on an event of Lex, once the answer of its path is known. *)
Lemma handler_steps
  (items state intent : list (string * pyval)) (t : string) (session context : pyval)
  (log : list call) :
  assoc "inputTranscript" items = Some (PStr t) ->
  assoc "sessionId" items = Some session ->
  assoc "sessionState" items = Some (PDict state) ->
  assoc "intent" state = Some (PDict intent) ->
  handler pf (PDict items) context log
  = match (if String.eqb t "" then kendra_search pf (PStr t) log
           else genai_intent pf (PDict items) log) with
    | (Ok response_text, log') =>
        (Ok (close_envelope (fulfilled intent) session
               (item_or_None "requestAttributes" items) response_text),
         (log' ++ timezone_calls)%list)
    | (Raise e, log') => (Raise e, log')
    end.
Proof.
  intros Ht Hid Hstate Hintent.
  unfold handler. step. rewrite Ht. cbn [eq_str].
  set (path := if String.eqb t "" then kendra_search pf (PStr t) log
               else genai_intent pf (PDict items) log).
  replace ((if String.eqb t "" then kendra_search pf (PStr t)
            else genai_intent pf (PDict items)) log) with path
    by (unfold path; now destruct (String.eqb t "")).
  destruct path as [[response_text | e] log']; [| reflexivity].
  destruct (lex_format_response_fields items state intent session response_text
              ((log' ++ [SetEnviron "TZ" "America/New_York"]) ++ [Tzset])%list
              Hid Hstate Hintent) as [event' Hfmt].
  rewrite Hfmt. cbn [snd]. unfold timezone_calls.
  now rewrite <- app_assoc.
Qed.

End Steps.

(** ** The envelope of a closed turn *)

Lemma close_envelope_state
  (intent : list (string * pyval)) (session attributes txt : pyval) :
  getpath (close_envelope (fulfilled intent) session attributes txt)
          ["sessionState"; "intent"; "state"]
  = Ok (PStr "Fulfilled").
Proof.
  unfold close_envelope, fulfilled. cbn. now rewrite assoc_set_same.
Qed.

Lemma close_envelope_action (intent session attributes txt : pyval) :
  getpath (close_envelope intent session attributes txt)
          ["sessionState"; "dialogAction"; "type"]
  = Ok (PStr "Close").
Proof. reflexivity. Qed.

Lemma close_envelope_messages (intent session attributes txt : pyval) :
  getitem (close_envelope intent session attributes txt) "messages"
  = Ok (PList [PDict [("contentType", PStr "PlainText"); ("content", txt)]]).
Proof. reflexivity. Qed.

(** ** The two paths of the handler on an event of Lex *)

Section Paths.

Variable pf : Platform.

Lemma getitem_dict_inv (items : list (string * pyval)) (k : string) (v : pyval) :
  getitem (PDict items) k = Ok v -> assoc k items = Some v.
Proof.
  cbn [getitem]. destruct (assoc k items); intros H; now inversion H.
Qed.

(** The handler closes the turn around whatever its path answers, and fails
    exactly when the path fails. *)
Lemma handler_lex_event (event : pyval) (t : string) :
  lex_event event = true ->
  getitem event "inputTranscript" = Ok (PStr t) ->
  exists intent session attributes,
    forall (context : pyval) (log : list call),
      handler pf event context log
      = match (if String.eqb t "" then kendra_search pf (PStr t) log
               else genai_intent pf event log) with
        | (Ok response_text, log') =>
            (Ok (close_envelope (fulfilled intent) session attributes
                   response_text),
             (log' ++ timezone_calls)%list)
        | (Raise e, log') => (Raise e, log')
        end.
Proof.
  intros Hev Ht.
  destruct (lex_event_fields event Hev)
    as (items & t0 & src & sid & st & it & -> & _ & _ & Hid & Hst & Hit).
  apply getitem_dict_inv in Ht.
  exists it, (PStr sid), (item_or_None "requestAttributes" items).
  intros context log.
  now apply handler_steps with (state := st).
Qed.

(** The assistant path on an event from the dialog code hook. *)
Lemma genai_intent_lex_dialog (event : pyval) (t : string) :
  lex_event event = true ->
  getitem event "inputTranscript" = Ok (PStr t) ->
  getitem event "invocationSource" = Ok (PStr "DialogCodeHook") ->
  exists session_attributes,
    forall log : list call,
      genai_intent pf event log
      = match invoke_fm pf (PStr t) log with
        | (Ok output, log') =>
            (Ok (elicit_intent event session_attributes output), log')
        | (Raise e, log') => (Raise e, log')
        end.
Proof.
  intros Hev Ht Hsrc.
  destruct (lex_event_fields event Hev)
    as (items & t0 & src & sid & st & it & -> & _ & _ & Hid & Hst & Hit).
  apply getitem_dict_inv in Ht. apply getitem_dict_inv in Hsrc.
  exists (py_or (item_or_None "sessionAttributes" st) (PDict [])).
  intros log. now apply genai_intent_dialog.
Qed.

(** The assistant path on an event from any other source. *)
Lemma genai_intent_lex_other (event source : pyval) (log : list call) :
  lex_event event = true ->
  getitem event "invocationSource" = Ok source ->
  eq_str source "DialogCodeHook" = false ->
  genai_intent pf event log = (Ok PNone, log).
Proof.
  intros Hev Hsrc Hne.
  destruct (lex_event_fields event Hev)
    as (items & t0 & src & sid & st & it & -> & _ & _ & Hid & Hst & Hit).
  apply getitem_dict_inv in Hsrc.
  now apply genai_intent_other_source with (state := st) (source := source).
Qed.

(** The search path, when the index and the model both answer. *)
Lemma kendra_search_answered
  (question passages : pyval) (raw : string) (log : list call) :
  retrieve_answer pf = Ok passages ->
  llm_answer pf question passages = Ok raw ->
  kendra_search pf question log
  = (match json_loads pf raw with
     | Ok response_body => get response_body "completion"
     | Raise e => Raise e
     end,
     (log ++ [retrieve_call; llm_call pf question passages])%list).
Proof.
  intros Hretrieve Hllm.
  rewrite kendra_search_steps, Hretrieve, invoke_llm_steps, Hllm.
  now rewrite <- app_assoc.
Qed.

Lemma eqb_nonempty (t : string) : t <> "" -> String.eqb t "" = false.
Proof. intros Ht. now apply String.eqb_neq. Qed.

End Paths.

(** ** The assistant path *)

(** On every event of Lex from the dialog code hook with a non-empty
    utterance, the text the agent returns reaches the envelope inside the
    elicit-intent response of [genai_intent]. *)
Lemma assistant_answer_is_wrapped_twice
  (pf : Platform) (event context : pyval) (t answer : string)
  (log : list call) :
  lex_event event = true ->
  getitem event "inputTranscript" = Ok (PStr t) ->
  t <> "" ->
  getitem event "invocationSource" = Ok (PStr "DialogCodeHook") ->
  agent_answer pf t = Ok answer ->
  exists envelope session_attributes,
    handler pf event context log
    = (Ok envelope, (log ++ agent_call t :: timezone_calls)%list)
    /\ getitem envelope "messages"
       = Ok (PList [PDict [("contentType", PStr "PlainText");
                           ("content",
                            elicit_intent event session_attributes
                              (PStr answer))]]).
Proof.
  intros Hev Ht Hne Hsrc Hagent.
  destruct (handler_lex_event pf event t Hev Ht)
    as (intent & session & attributes & Hhandler).
  destruct (genai_intent_lex_dialog pf event t Hev Ht Hsrc)
    as (session_attributes & Hgenai).
  eexists. exists session_attributes.
  rewrite Hhandler, (eqb_nonempty t Hne), Hgenai, invoke_fm_str, Hagent.
  split; [now rewrite <- app_assoc | reflexivity].
Qed.

(** C1, at the scenario of the specification: for the utterance
    [What is my loan balance?] from the dialog code hook and an agent that
    answers [42], the handler runs the agent once, on the prompt made of two
    line feeds, [Human: ], the utterance, a space, two line feeds and
    [Assistant:]; but the content of the single message of the envelope is the
    whole elicit-intent response that [genai_intent] returns, with [42] as the
    content of its first message, and not the text [42] itself. *)
Theorem loan_balance_content_is_elicit_response :
  agent_answer Reference.mock "What is my loan balance?" = Ok "42"
  /\ exists envelope content,
      handler Reference.mock Reference.loan_event PNone []
      = (Ok envelope,
         [AgentRun "anthropic.claude-v2" [("max_tokens_to_sample", PInt 350)]
            (nl ++ nl ++ "Human: What is my loan balance? " ++ nl ++ nl
                ++ "Assistant:");
          SetEnviron "TZ" "America/New_York"; Tzset])
      /\ getitem envelope "messages"
         = Ok (PList [PDict [("contentType", PStr "PlainText");
                             ("content", content)]])
      /\ content
         = elicit_intent Reference.loan_event
             (PDict [("customer", PStr "c-7")]) (PStr "42")
      /\ getpath content ["messages"]
         = Ok (PList [PDict [("contentType", PStr "PlainText");
                             ("content", PStr "42")];
                      PDict [("contentType", PStr "ImageResponseCard");
                             ("imageResponseCard", PDict [
                                ("buttons", PList [
                                   PDict [("text", PStr "Loan Application");
                                          ("value", PStr "Loan Application")];
                                   PDict [("text", PStr "Loan Calculator");
                                          ("value", PStr "Loan Calculator")];
                                   PDict [("text", PStr "Ask GenAI");
                                          ("value", PStr "What kind of questions can the Assistant answer?")]]);
                                ("title", PStr "How can I help you?")])]])
      /\ content <> PStr "42".
Proof.
  split; [reflexivity |].
  eexists. eexists.
  split; [vm_compute; reflexivity |].
  split; [reflexivity |].
  split; [reflexivity |].
  split; [reflexivity | discriminate].
Qed.

(** C4, as the specification states it, fails on an agent failure that is not
    a [ValueError]: a [RuntimeError] whose message is
    [Could not parse LLM output: `Your balance is 42`] is not caught by the
    [except ValueError] clause; [invoke_fm] ends with it, and so does the
    handler, which returns no envelope. *)
Lemma parse_message_of_other_class_propagates :
  agent_answer runtime_error_platform "What is my loan balance?"
  = Raise (OtherError "RuntimeError"
             ("Could not parse LLM output: `" ++ "Your balance is 42" ++ "`"))
  /\ invoke_fm runtime_error_platform (PStr "What is my loan balance?") []
     = (Raise (OtherError "RuntimeError"
                 "Could not parse LLM output: `Your balance is 42`"),
        [agent_call "What is my loan balance?"])
  /\ invoke_fm runtime_error_platform (PStr "What is my loan balance?") []
     <> (Ok (PStr "Your balance is 42"),
         [agent_call "What is my loan balance?"])
  /\ handler runtime_error_platform Reference.loan_event PNone []
     = (Raise (OtherError "RuntimeError"
                 "Could not parse LLM output: `Your balance is 42`"),
        [agent_call "What is my loan balance?"]).
Proof.
  split; [reflexivity |].
  split; [reflexivity |].
  split; [discriminate | reflexivity].
Qed.

(** C4, amended: when the agent fails with a [ValueError], or an instance of
    one of its subclasses, whose message is
    [Could not parse LLM output: `ANSWER`], for any text [ANSWER],
    [invoke_fm] does not fail: after the one run of the agent it returns
    [ANSWER], the message without the prefix and without the closing
    backtick. *)
Theorem parse_failure_becomes_answer
  (pf : Platform) (t cls answer : string) (log : list call) :
  agent_answer pf t
  = Raise (ValueError cls ("Could not parse LLM output: `" ++ answer ++ "`")) ->
  invoke_fm pf (PStr t) log
  = (Ok (PStr answer), (log ++ [agent_call t])%list).
Proof.
  intros Hagent.
  rewrite invoke_fm_str, Hagent.
  change (startswith ("Could not parse LLM output: `" ++ answer ++ "`")
                     "Could not parse LLM output:") with true.
  cbv iota.
  rewrite removeprefix_append, removesuffix_append by discriminate.
  reflexivity.
Qed.

Lemma parse_failure_becomes_answer_witness :
  invoke_fm
    (Reference.platform
       (fun _ => Raise (ValueError "OutputParserException"
                          "Could not parse LLM output: `Your balance is 42`"))
       Reference.completion_body)
    (PStr "What is my loan balance?") []
  = (Ok (PStr "Your balance is 42"),
     [agent_call "What is my loan balance?"]).
Proof.
  apply (parse_failure_becomes_answer
           (Reference.platform
              (fun _ => Raise (ValueError "OutputParserException"
                                 "Could not parse LLM output: `Your balance is 42`"))
              Reference.completion_body)
           "What is my loan balance?" "OutputParserException"
           "Your balance is 42" []).
  reflexivity.
Defined.

(** C5: on an event from the dialog code hook with a non-empty utterance, when
    the agent fails with an exception that is not a [ValueError], or with a
    [ValueError] whose message does not start with
    [Could not parse LLM output:], [invoke_fm] ends with that same exception
    and so does the handler: no envelope is returned, and nothing is called
    after the agent. *)
Theorem agent_failure_propagates
  (pf : Platform) (event context : pyval) (t : string) (e : exn)
  (log : list call) :
  lex_event event = true ->
  getitem event "inputTranscript" = Ok (PStr t) ->
  t <> "" ->
  getitem event "invocationSource" = Ok (PStr "DialogCodeHook") ->
  agent_answer pf t = Raise e ->
  (forall cls message,
      e = ValueError cls message ->
      startswith message "Could not parse LLM output:" = false) ->
  invoke_fm pf (PStr t) log = (Raise e, (log ++ [agent_call t])%list)
  /\ handler pf event context log = (Raise e, (log ++ [agent_call t])%list).
Proof.
  intros Hev Ht Hne Hsrc Hagent Hprefix.
  assert (Hfm : invoke_fm pf (PStr t) log
                = (Raise e, (log ++ [agent_call t])%list)).
  { rewrite invoke_fm_str, Hagent.
    destruct e as [k | m | m | cls m | cls m]; try reflexivity.
    now rewrite (Hprefix cls m eq_refl). }
  split; [exact Hfm |].
  destruct (handler_lex_event pf event t Hev Ht)
    as (intent & session & attributes & Hhandler).
  destruct (genai_intent_lex_dialog pf event t Hev Ht Hsrc)
    as (session_attributes & Hgenai).
  rewrite Hhandler, (eqb_nonempty t Hne), Hgenai, Hfm.
  reflexivity.
Qed.

Lemma agent_failure_propagates_witness :
  handler
    (Reference.platform
       (fun _ => Raise (ValueError "ValueError" "Unknown tool: loan_lookup"))
       Reference.completion_body)
    Reference.loan_event PNone []
  = (Raise (ValueError "ValueError" "Unknown tool: loan_lookup"),
     [agent_call "What is my loan balance?"]).
Proof.
  apply (agent_failure_propagates
           (Reference.platform
              (fun _ => Raise (ValueError "ValueError"
                                 "Unknown tool: loan_lookup"))
              Reference.completion_body)
           Reference.loan_event PNone "What is my loan balance?"
           (ValueError "ValueError" "Unknown tool: loan_lookup") []).
  - reflexivity.
  - reflexivity.
  - discriminate.
  - reflexivity.
  - reflexivity.
  - intros cls message H. inversion H. reflexivity.
Defined.

(** C6: on an event of Lex from the dialog code hook with a non-empty
    utterance, once [invoke_fm] has produced its answer the handler returns an
    envelope whose [sessionState.intent.state] is [Fulfilled] and whose
    [messages] list holds exactly one block, of content type [PlainText]. *)
Theorem dialog_hook_envelope_fulfilled
  (pf : Platform) (event context output : pyval) (t : string)
  (log log' : list call) :
  lex_event event = true ->
  getitem event "inputTranscript" = Ok (PStr t) ->
  t <> "" ->
  getitem event "invocationSource" = Ok (PStr "DialogCodeHook") ->
  invoke_fm pf (PStr t) log = (Ok output, log') ->
  exists envelope block,
    handler pf event context log = (Ok envelope, (log' ++ timezone_calls)%list)
    /\ getpath envelope ["sessionState"; "intent"; "state"]
       = Ok (PStr "Fulfilled")
    /\ getitem envelope "messages" = Ok (PList [block])
    /\ is_plain_text block = true.
Proof.
  intros Hev Ht Hne Hsrc Hfm.
  destruct (handler_lex_event pf event t Hev Ht)
    as (intent & session & attributes & Hhandler).
  destruct (genai_intent_lex_dialog pf event t Hev Ht Hsrc)
    as (session_attributes & Hgenai).
  eexists. eexists.
  rewrite Hhandler, (eqb_nonempty t Hne), Hgenai, Hfm.
  split; [reflexivity |].
  split; [apply close_envelope_state |].
  split; reflexivity.
Qed.

Lemma dialog_hook_envelope_fulfilled_witness :
  exists envelope block,
    handler Reference.mock Reference.loan_event PNone []
    = (Ok envelope,
       ([agent_call "What is my loan balance?"] ++ timezone_calls)%list)
    /\ getpath envelope ["sessionState"; "intent"; "state"]
       = Ok (PStr "Fulfilled")
    /\ getitem envelope "messages" = Ok (PList [block])
    /\ is_plain_text block = true.
Proof.
  apply (dialog_hook_envelope_fulfilled
           Reference.mock Reference.loan_event PNone (PStr "42")
           "What is my loan balance?" []
           [agent_call "What is my loan balance?"]).
  - reflexivity.
  - reflexivity.
  - discriminate.
  - reflexivity.
  - reflexivity.
Defined.

(** C10: on an event of Lex with a non-empty utterance whose invocation source
    is not [DialogCodeHook], the handler does not fail and calls neither the
    agent nor the model: it returns an envelope whose dialog action is
    [Close], whose intent state is [Fulfilled], and whose single plain-text
    message has the content [None]. *)
Theorem other_source_closes_with_null_content
  (pf : Platform) (event context source : pyval) (t : string)
  (log : list call) :
  lex_event event = true ->
  getitem event "inputTranscript" = Ok (PStr t) ->
  t <> "" ->
  getitem event "invocationSource" = Ok source ->
  eq_str source "DialogCodeHook" = false ->
  exists envelope calls,
    handler pf event context log = (Ok envelope, (log ++ calls)%list)
    /\ existsb is_llm_call calls = false
    /\ getpath envelope ["sessionState"; "dialogAction"; "type"]
       = Ok (PStr "Close")
    /\ getpath envelope ["sessionState"; "intent"; "state"]
       = Ok (PStr "Fulfilled")
    /\ getitem envelope "messages"
       = Ok (PList [PDict [("contentType", PStr "PlainText");
                           ("content", PNone)]]).
Proof.
  intros Hev Ht Hne Hsrc Hother.
  destruct (handler_lex_event pf event t Hev Ht)
    as (intent & session & attributes & Hhandler).
  eexists. exists timezone_calls.
  rewrite Hhandler, (eqb_nonempty t Hne).
  rewrite (genai_intent_lex_other pf event source log Hev Hsrc Hother).
  split; [reflexivity |].
  split; [reflexivity |].
  split; [reflexivity |].
  split; [apply close_envelope_state | reflexivity].
Qed.

Lemma other_source_closes_with_null_content_witness :
  exists envelope calls,
    handler Reference.mock Reference.fulfilment_event PNone []
    = (Ok envelope, ([] ++ calls)%list)
    /\ existsb is_llm_call calls = false
    /\ getpath envelope ["sessionState"; "dialogAction"; "type"]
       = Ok (PStr "Close")
    /\ getpath envelope ["sessionState"; "intent"; "state"]
       = Ok (PStr "Fulfilled")
    /\ getitem envelope "messages"
       = Ok (PList [PDict [("contentType", PStr "PlainText");
                           ("content", PNone)]]).
Proof.
  apply (other_source_closes_with_null_content
           Reference.mock Reference.fulfilment_event PNone
           (PStr "FulfillmentCodeHook") "What is my loan balance?" []).
  - reflexivity.
  - reflexivity.
  - discriminate.
  - reflexivity.
  - reflexivity.
Defined.

(** ** The search path *)

(** C7: on an event of Lex with an empty utterance the handler takes the
    search path: it queries the index [823fed26-38f9-490a-bdfc-d89e19f95a63]
    with the query [get me wiki], page number 1 and page size 15, then sends
    one request to the model; when both answer and the body of the model's
    answer parses to a JSON object with a [completion] field, that field is
    the content of the single message of the envelope. *)
Theorem empty_transcript_takes_search_path
  (pf : Platform) (event context passages completion : pyval) (raw : string)
  (body : list (string * pyval)) (log : list call) :
  lex_event event = true ->
  getitem event "inputTranscript" = Ok (PStr "") ->
  retrieve_answer pf = Ok passages ->
  llm_answer pf (PStr "") passages = Ok raw ->
  json_loads pf raw = Ok (PDict body) ->
  assoc "completion" body = Some completion ->
  exists envelope,
    handler pf event context log
    = (Ok envelope,
       (log ++ [KendraRetrieve "823fed26-38f9-490a-bdfc-d89e19f95a63"
                               "get me wiki" 1 15;
                llm_call pf (PStr "") passages]
            ++ timezone_calls)%list)
    /\ getitem envelope "messages"
       = Ok (PList [PDict [("contentType", PStr "PlainText");
                           ("content", completion)]]).
Proof.
  intros Hev Ht Hretrieve Hllm Hloads Hcompletion.
  destruct (handler_lex_event pf event "" Hev Ht)
    as (intent & session & attributes & Hhandler).
  eexists.
  rewrite Hhandler. cbn [String.eqb].
  rewrite (kendra_search_answered pf (PStr "") passages raw log Hretrieve Hllm).
  rewrite Hloads. cbn [get]. rewrite Hcompletion.
  split; [now rewrite <- app_assoc | reflexivity].
Qed.

Lemma empty_transcript_takes_search_path_witness :
  exists envelope,
    handler Reference.mock Reference.search_event PNone []
    = (Ok envelope,
       ([] ++ [KendraRetrieve "823fed26-38f9-490a-bdfc-d89e19f95a63"
                              "get me wiki" 1 15;
               llm_call Reference.mock (PStr "") Reference.passages]
           ++ timezone_calls)%list)
    /\ getitem envelope "messages"
       = Ok (PList [PDict [("contentType", PStr "PlainText");
                           ("content", PStr "I dont know")]]).
Proof.
  apply (empty_transcript_takes_search_path
           Reference.mock Reference.search_event PNone Reference.passages
           (PStr "I dont know") Reference.completion_body
           [("completion", PStr "I dont know")] []).
  - reflexivity.
  - reflexivity.
  - reflexivity.
  - reflexivity.
  - reflexivity.
  - reflexivity.
Defined.

(** C2, as the specification states it, fails on the event of the search
    scenario: the request that would carry the event as its question is not
    among the calls of the handler; the one that is sent carries the empty
    utterance. *)
Lemma search_question_is_not_the_event :
  ~ In (llm_call Reference.mock Reference.search_event Reference.passages)
       (snd (handler Reference.mock Reference.search_event PNone []))
  /\ In (llm_call Reference.mock (PStr "") Reference.passages)
        (snd (handler Reference.mock Reference.search_event PNone [])).
Proof.
  split.
  - vm_compute. intros [H | [H | [H | [H | []]]]]; discriminate H.
  - vm_compute. right. left. reflexivity.
Qed.

(** C2, amended: on an event of Lex with an empty utterance, the search path
    is given the utterance read from the event, the empty string, and not the
    event: when the index answers with [passages], the prompt of the request
    sent to the model is [prompt_data] with the empty string for its question
    and the printed [passages] for its context. *)
Theorem search_question_is_the_transcript
  (pf : Platform) (event context passages : pyval) (log : list call) :
  lex_event event = true ->
  getitem event "inputTranscript" = Ok (PStr "") ->
  retrieve_answer pf = Ok passages ->
  exists outcome rest,
    handler pf event context log
    = (outcome,
       (log ++ [retrieve_call;
                InvokeModel
                  (json_dumps pf
                     (request_body (prompt_data "" (py_str pf passages))))
                  "anthropic.claude-v2" "application/json" "application/json"]
            ++ rest)%list).
Proof.
  intros Hev Ht Hretrieve.
  destruct (handler_lex_event pf event "" Hev Ht)
    as (intent & session & attributes & Hhandler).
  rewrite Hhandler. cbn [String.eqb].
  rewrite kendra_search_steps, Hretrieve, invoke_llm_steps.
  unfold llm_call, llm_body. cbn [py_str].
  destruct (match llm_answer pf (PStr "") passages with
            | Ok raw => _
            | Raise e => _
            end) as [answer | e].
  - eexists. exists timezone_calls. now rewrite <- !app_assoc.
  - eexists. exists []. now rewrite <- !app_assoc.
Qed.

Lemma search_question_is_the_transcript_witness :
  exists outcome rest,
    handler Reference.mock Reference.search_event PNone []
    = (outcome,
       ([] ++ [retrieve_call;
               InvokeModel
                 (json_dumps Reference.mock
                    (request_body
                       (prompt_data "" (py_str Reference.mock Reference.passages))))
                 "anthropic.claude-v2" "application/json" "application/json"]
           ++ rest)%list).
Proof.
  apply (search_question_is_the_transcript
           Reference.mock Reference.search_event PNone Reference.passages []).
  - reflexivity.
  - reflexivity.
  - reflexivity.
Defined.

(** C3, as the specification states it, fails when the model answers with the
    body of an empty JSON object: the parsed body has no [completion] field,
    and the handler ends with an envelope, not with an exception. *)
Lemma missing_completion_is_not_fatal :
  json_loads (Reference.platform (fun _ => Ok "42") Reference.empty_body)
             Reference.empty_body
  = Ok (PDict [])
  /\ assoc "completion" [] = None
  /\ (forall e : exn,
        fst (handler (Reference.platform (fun _ => Ok "42") Reference.empty_body)
                     Reference.search_event PNone [])
        <> Raise e)
  /\ exists envelope,
      fst (handler (Reference.platform (fun _ => Ok "42") Reference.empty_body)
                   Reference.search_event PNone [])
      = Ok envelope.
Proof.
  split; [reflexivity |].
  split; [reflexivity |].
  split.
  - intros e. vm_compute. discriminate.
  - eexists. vm_compute. reflexivity.
Qed.

(** C3, amended: in the search path, when the body of the model's answer
    parses to a JSON object without a [completion] field, the lookup yields
    [None] and the invocation does not fail: on an event of Lex the handler
    returns an envelope whose single plain-text message has the content
    [None]. *)
Theorem missing_completion_gives_null_content
  (pf : Platform) (event context passages : pyval) (raw : string)
  (body : list (string * pyval)) (log : list call) :
  lex_event event = true ->
  getitem event "inputTranscript" = Ok (PStr "") ->
  retrieve_answer pf = Ok passages ->
  llm_answer pf (PStr "") passages = Ok raw ->
  json_loads pf raw = Ok (PDict body) ->
  assoc "completion" body = None ->
  kendra_search pf (PStr "") log
  = (Ok PNone, (log ++ [retrieve_call; llm_call pf (PStr "") passages])%list)
  /\ exists envelope,
      handler pf event context log
      = (Ok envelope,
         (log ++ [retrieve_call; llm_call pf (PStr "") passages]
              ++ timezone_calls)%list)
      /\ getitem envelope "messages"
         = Ok (PList [PDict [("contentType", PStr "PlainText");
                             ("content", PNone)]]).
Proof.
  intros Hev Ht Hretrieve Hllm Hloads Hcompletion.
  assert (Hsearch : kendra_search pf (PStr "") log
                    = (Ok PNone,
                       (log ++ [retrieve_call;
                                llm_call pf (PStr "") passages])%list)).
  { rewrite (kendra_search_answered pf (PStr "") passages raw log
               Hretrieve Hllm).
    rewrite Hloads. cbn [get]. now rewrite Hcompletion. }
  split; [exact Hsearch |].
  destruct (handler_lex_event pf event "" Hev Ht)
    as (intent & session & attributes & Hhandler).
  eexists.
  rewrite Hhandler. cbn [String.eqb]. rewrite Hsearch.
  split; [now rewrite <- app_assoc | reflexivity].
Qed.

Lemma missing_completion_gives_null_content_witness :
  kendra_search (Reference.platform (fun _ => Ok "42") Reference.empty_body)
                (PStr "") []
  = (Ok PNone,
     ([] ++ [retrieve_call;
             llm_call (Reference.platform (fun _ => Ok "42") Reference.empty_body)
                      (PStr "") Reference.passages])%list)
  /\ exists envelope,
      handler (Reference.platform (fun _ => Ok "42") Reference.empty_body)
              Reference.search_event PNone []
      = (Ok envelope,
         ([] ++ [retrieve_call;
                 llm_call (Reference.platform (fun _ => Ok "42")
                                              Reference.empty_body)
                          (PStr "") Reference.passages]
             ++ timezone_calls)%list)
      /\ getitem envelope "messages"
         = Ok (PList [PDict [("contentType", PStr "PlainText");
                             ("content", PNone)]]).
Proof.
  apply (missing_completion_gives_null_content
           (Reference.platform (fun _ => Ok "42") Reference.empty_body)
           Reference.search_event PNone Reference.passages
           Reference.empty_body [] []).
  - reflexivity.
  - reflexivity.
  - reflexivity.
  - reflexivity.
  - reflexivity.
  - reflexivity.
Defined.

(** C9: whatever the question and the context, the one request [invoke_llm]
    sends to the model has for body the serialization of a dict with exactly
    six items: the prompt, [max_tokens_to_sample] 8191, [temperature] 0,
    [top_k] 250, [top_p] 0.5 and an empty [stop_sequences] list. *)
Theorem invoke_llm_request_parameters
  (pf : Platform) (question context : pyval) (log : list call) :
  exists outcome items,
    invoke_llm pf question context log
    = (outcome,
       (log ++ [InvokeModel (json_dumps pf (PDict items))
                  "anthropic.claude-v2" "application/json"
                  "application/json"])%list)
    /\ map fst items
       = ["prompt"; "max_tokens_to_sample"; "temperature"; "top_k"; "top_p";
          "stop_sequences"]
    /\ assoc "prompt" items
       = Some (PStr (prompt_data (py_str pf question) (py_str pf context)))
    /\ assoc "temperature" items = Some (PInt 0)
    /\ assoc "top_k" items = Some (PInt 250)
    /\ assoc "top_p" items = Some (PFloat 0.5%float)
    /\ assoc "max_tokens_to_sample" items = Some (PInt 8191)
    /\ assoc "stop_sequences" items = Some (PList []).
Proof.
  eexists. eexists.
  rewrite invoke_llm_steps. unfold llm_call, llm_body, request_body.
  split; [reflexivity |].
  repeat split.
Qed.

(** The body of C9 as the reference serializer writes it, for a short
    prompt. *)
Example request_body_serialized :
  Reference.dumps (request_body "Hi")
  = "{" ++ Reference.json_string "prompt" ++ ": " ++ Reference.json_string "Hi"
        ++ ", " ++ Reference.json_string "max_tokens_to_sample" ++ ": 8191"
        ++ ", " ++ Reference.json_string "temperature" ++ ": 0"
        ++ ", " ++ Reference.json_string "top_k" ++ ": 250"
        ++ ", " ++ Reference.json_string "top_p" ++ ": 0.5"
        ++ ", " ++ Reference.json_string "stop_sequences" ++ ": []}".
Proof. vm_compute. reflexivity. Qed.

(** ** The elicit-intent response *)

(** C8: an elicit-intent response has exactly two message blocks: a
    plain-text block whose content is the given message, then an
    image-response-card block with exactly three buttons, whose texts are
    [Loan Application], [Loan Calculator] and [Ask GenAI] in this order. *)
Theorem elicit_intent_blocks (intent_request session_attributes message : pyval) :
  exists card buttons,
    getitem (elicit_intent intent_request session_attributes message) "messages"
    = Ok (PList [PDict [("contentType", PStr "PlainText");
                        ("content", message)];
                 card])
    /\ getitem card "contentType" = Ok (PStr "ImageResponseCard")
    /\ getpath card ["imageResponseCard"; "buttons"] = Ok (PList buttons)
    /\ button_texts buttons
       = [Ok (PStr "Loan Application"); Ok (PStr "Loan Calculator");
          Ok (PStr "Ask GenAI")].
Proof.
  eexists. eexists.
  split; [reflexivity |].
  repeat split.
Qed.

(** ** The formatter on any event *)

Section Quiet.

Context {A B : Type}.

Lemma quiet_ret (a : A) : quiet (ret a).
Proof. intros log. reflexivity. Qed.

Lemma quiet_lift (r : result A) : quiet (lift r).
Proof. intros log. reflexivity. Qed.

Lemma quiet_bind (m : M A) (f : A -> M B) :
  quiet m -> (forall a, quiet (f a)) -> quiet (bind m f).
Proof.
  intros Hm Hf log. unfold bind.
  specialize (Hm log).
  destruct (m log) as [[a | e] log']; cbn [snd] in Hm; subst log'.
  - apply Hf.
  - reflexivity.
Qed.

End Quiet.

Lemma lex_format_response_quiet (event response_text : pyval) :
  quiet (lex_format_response event response_text).
Proof.
  unfold lex_format_response.
  repeat (apply quiet_bind; [apply quiet_lift | intros ?]).
  apply quiet_bind.
  - match goal with
    | |- quiet (if ?present then _ else _) => destruct present
    end; [apply quiet_lift | apply quiet_ret].
  - intros ?. apply quiet_ret.
Qed.

(** The formatter on a dict whose session state holds an intent object: the
    event after the assignment, and the envelope. *)
Lemma lex_format_response_value
  (items state intent : list (string * pyval)) (session txt : pyval)
  (log : list call) :
  assoc "sessionId" items = Some session ->
  assoc "sessionState" items = Some (PDict state) ->
  assoc "intent" state = Some (PDict intent) ->
  lex_format_response (PDict items) txt log
  = (Ok (marked_event items state intent,
         close_envelope (fulfilled intent) session
           (item_or_None "requestAttributes" items) txt), log).
Proof.
  intros Hid Hstate Hintent.
  unfold lex_format_response, marked_event, fulfilled. step.
  rewrite Hstate. step. rewrite Hintent. step.
  rewrite assoc_set_same. step. rewrite assoc_set_same.
  rewrite !(assoc_set_other "sessionState") by discriminate.
  rewrite Hid. unfold item_or_None.
  destruct (assoc "requestAttributes" items) as [v |]; reflexivity.
Qed.

(** The formatter returns only on such an event. *)
Lemma lex_format_response_inv
  (event txt : pyval) (formatted : pyval * pyval) (log log' : list call) :
  lex_format_response event txt log = (Ok formatted, log') ->
  exists items state intent session,
    event = PDict items
    /\ assoc "sessionId" items = Some session
    /\ assoc "sessionState" items = Some (PDict state)
    /\ assoc "intent" state = Some (PDict intent).
Proof.
  unfold lex_format_response.
  destruct event as [| b | n | x | s | l | items];
    try (step; intros H; discriminate H).
  step.
  destruct (assoc "sessionState" items) as [sessionState |] eqn:Hstate;
    [| intros H; discriminate H].
  destruct sessionState as [| b | n | x | s | l | state];
    try (step; intros H; discriminate H).
  step.
  destruct (assoc "intent" state) as [intent |] eqn:Hintent;
    [| intros H; discriminate H].
  destruct intent as [| b | n | x | s | l | intent];
    try (step; intros H; discriminate H).
  step. rewrite assoc_set_same. step. rewrite assoc_set_same.
  rewrite !(assoc_set_other "sessionState") by discriminate.
  destruct (assoc "sessionId" items) as [session |] eqn:Hid;
    [| intros H; discriminate H].
  intros _. exists items, state, intent, session. repeat split; assumption.
Qed.

(** ** The handler on any event *)

Section AnyEvent.

Variable pf : Platform.

(** The handler, step by step: the utterance, the path, the two changes to
    the environment, the formatter. *)
Lemma handler_unfold (event context : pyval) (log : list call) :
  handler pf event context log
  = match getitem event "inputTranscript" with
    | Raise e => (Raise e, log)
    | Ok user_input =>
        match (if eq_str user_input "" then kendra_search pf user_input log
               else genai_intent pf event log) with
        | (Raise e, log') => (Raise e, log')
        | (Ok response_text, log') =>
            match lex_format_response event response_text
                    (log' ++ timezone_calls)%list with
            | (Ok formatted, log'') => (Ok (snd formatted), log'')
            | (Raise e, log'') => (Raise e, log'')
            end
        end
    end.
Proof.
  unfold handler. unfold bind at 1. unfold lift at 1.
  destruct (getitem event "inputTranscript") as [user_input | e];
    [| reflexivity].
  unfold bind at 1.
  set (path := if eq_str user_input "" then kendra_search pf user_input log
               else genai_intent pf event log).
  replace ((if eq_str user_input "" then kendra_search pf user_input
            else genai_intent pf event) log) with path
    by (unfold path; now destruct (eq_str user_input "")).
  destruct path as [[response_text | e] log']; [| reflexivity].
  unfold bind at 1, perform at 1. unfold bind at 1, perform at 1.
  unfold timezone_calls. rewrite <- app_assoc. cbn [app].
  unfold bind at 1.
  destruct (lex_format_response event response_text _)
    as [[formatted | e] log'']; reflexivity.
Qed.

End AnyEvent.

(** ** The calls of the two paths *)

Section PathCalls.

Variable pf : Platform.

(** [invoke_fm] runs the agent once on a [str], and not at all on anything
    else. *)
Lemma invoke_fm_calls (prompt : pyval) (log : list call) :
  snd (invoke_fm pf prompt log)
  = (log ++ match prompt with
            | PStr t => [agent_call t]
            | _ => []
            end)%list.
Proof.
  destruct prompt as [| b | n | x | t | l | d];
    try (cbn; now rewrite app_nil_r).
  rewrite invoke_fm_str.
  destruct (agent_answer pf t) as [message | e]; [reflexivity |].
  destruct e as [k | m | m | cls m | cls m]; try reflexivity.
  destruct (startswith m _); reflexivity.
Qed.

Lemma genai_intent_calls (event : pyval) (log : list call) :
  exists calls,
    snd (genai_intent pf event log) = (log ++ calls)%list
    /\ (calls = [] \/ exists t, calls = [agent_call t]).
Proof.
  assert (Hnone : forall (r : result pyval),
             exists calls,
               snd (r, log) = (log ++ calls)%list
               /\ (calls = [] \/ exists t, calls = [agent_call t])).
  { intros r. exists []. split; [now rewrite app_nil_r | now left]. }
  unfold genai_intent.
  unfold bind at 1, lift at 1.
  destruct (getitem event "sessionState") as [sessionState | e];
    [| apply Hnone].
  unfold bind at 1, lift at 1.
  destruct (get sessionState "sessionAttributes") as [attributes | e];
    [| apply Hnone].
  unfold bind at 1, lift at 1.
  destruct (getitem event "invocationSource") as [source | e];
    [| apply Hnone].
  destruct (eq_str source "DialogCodeHook"); [| apply Hnone].
  unfold bind at 1, lift at 1.
  destruct (getitem event "inputTranscript") as [prompt | e];
    [| apply Hnone].
  unfold bind at 1.
  pose proof (invoke_fm_calls prompt log) as Hcalls.
  destruct (invoke_fm pf prompt log) as [[output | e] log'];
    cbn [snd] in Hcalls; subst log'; unfold ret; cbn [snd];
    (eexists; split; [reflexivity |]);
    (destruct prompt; (now left) || (right; eexists; reflexivity)).
Qed.

Lemma kendra_search_calls (question : pyval) (log : list call) :
  exists calls,
    snd (kendra_search pf question log) = (log ++ retrieve_call :: calls)%list
    /\ (calls = [] \/ exists passages, calls = [llm_call pf question passages]).
Proof.
  rewrite kendra_search_steps.
  destruct (retrieve_answer pf) as [passages | e].
  - rewrite invoke_llm_steps. cbn [snd].
    exists [llm_call pf question passages].
    split; [now rewrite <- app_assoc | right; now exists passages].
  - exists []. split; [reflexivity | now left].
Qed.

(** Either path extends the log by calls of one of the four admitted shapes. *)
Lemma path_extends_log (event user_input : pyval) (log : list call) :
  exists calls,
    snd (if eq_str user_input "" then kendra_search pf user_input log
         else genai_intent pf event log)
    = (log ++ calls)%list
    /\ path_calls calls = true.
Proof.
  destruct (eq_str user_input "").
  - destruct (kendra_search_calls user_input log)
      as (calls & Hlog & [-> | [passages ->]]);
      eexists; (split; [exact Hlog | reflexivity]).
  - destruct (genai_intent_calls event log)
      as (calls & Hlog & [-> | [t ->]]);
      eexists; (split; [exact Hlog | reflexivity]).
Qed.

End PathCalls.

(** ** What holds of every invocation *)

(** X1: whatever the event and whatever the services answer, an envelope the
    handler returns closes the dialog, marks the intent fulfilled, resets the
    session attributes to [history: none] and holds exactly one message block,
    of content type [PlainText]; and the two changes to the time zone are the
    last entries of the log. *)
Theorem handler_envelope_invariant
  (pf : Platform) (event context envelope : pyval) (log log' : list call) :
  handler pf event context log = (Ok envelope, log') ->
  getpath envelope ["sessionState"; "dialogAction"; "type"] = Ok (PStr "Close")
  /\ getpath envelope ["sessionState"; "intent"; "state"]
     = Ok (PStr "Fulfilled")
  /\ getpath envelope ["sessionState"; "sessionAttributes"]
     = Ok (PDict [("history", PStr "none")])
  /\ (exists block,
        getitem envelope "messages" = Ok (PList [block])
        /\ is_plain_text block = true)
  /\ exists calls, log' = (log ++ calls ++ timezone_calls)%list.
Proof.
  rewrite handler_unfold.
  destruct (getitem event "inputTranscript") as [user_input | e];
    [| discriminate].
  destruct (path_extends_log pf event user_input log) as (calls & Hlog & _).
  destruct (if eq_str user_input "" then _ else _)
    as [[response_text | e] log1]; [| discriminate].
  cbn [snd] in Hlog. subst log1.
  pose proof (lex_format_response_quiet event response_text
                ((log ++ calls) ++ timezone_calls)%list) as Hquiet.
  destruct (lex_format_response event response_text _)
    as [[formatted | e] log2] eqn:Hfmt; [| discriminate].
  cbn [snd] in Hquiet. subst log2.
  destruct (lex_format_response_inv _ _ _ _ _ Hfmt)
    as (items & state & intent & session & -> & Hid & Hstate & Hintent).
  rewrite (lex_format_response_value items state intent session response_text
             _ Hid Hstate Hintent) in Hfmt.
  inversion Hfmt; subst formatted. cbn [snd].
  intros H. inversion H; subst envelope log'.
  split; [reflexivity |].
  split; [apply close_envelope_state |].
  split; [reflexivity |].
  split; [eexists; split; reflexivity |].
  exists calls. now rewrite app_assoc.
Qed.

Lemma handler_envelope_invariant_witness :
  getpath (close_envelope
             (fulfilled [("name", PStr "FallbackIntent");
                         ("state", PStr "InProgress")])
             (PStr "session-1") PNone (PStr "I dont know"))
          ["sessionState"; "dialogAction"; "type"] = Ok (PStr "Close")
  /\ getpath (close_envelope
                (fulfilled [("name", PStr "FallbackIntent");
                            ("state", PStr "InProgress")])
                (PStr "session-1") PNone (PStr "I dont know"))
             ["sessionState"; "intent"; "state"]
     = Ok (PStr "Fulfilled")
  /\ getpath (close_envelope
                (fulfilled [("name", PStr "FallbackIntent");
                            ("state", PStr "InProgress")])
                (PStr "session-1") PNone (PStr "I dont know"))
             ["sessionState"; "sessionAttributes"]
     = Ok (PDict [("history", PStr "none")])
  /\ (exists block,
        getitem (close_envelope
                   (fulfilled [("name", PStr "FallbackIntent");
                               ("state", PStr "InProgress")])
                   (PStr "session-1") PNone (PStr "I dont know"))
                "messages" = Ok (PList [block])
        /\ is_plain_text block = true)
  /\ exists calls,
      [retrieve_call;
       llm_call Reference.mock (PStr "") Reference.passages;
       SetEnviron "TZ" "America/New_York"; Tzset]
      = ([] ++ calls ++ timezone_calls)%list.
Proof.
  apply (handler_envelope_invariant
           Reference.mock Reference.search_event PNone
           (close_envelope
              (fulfilled [("name", PStr "FallbackIntent");
                          ("state", PStr "InProgress")])
              (PStr "session-1") PNone (PStr "I dont know"))
           []
           [retrieve_call;
            llm_call Reference.mock (PStr "") Reference.passages;
            SetEnviron "TZ" "America/New_York"; Tzset]).
  reflexivity.
Defined.

(** X2: whatever the event and whatever the services answer, the calls of one
    invocation are: nothing, or one run of the agent, or one query of the
    index, or one query of the index followed by one request to the model;
    after them come the two changes to the time zone, or nothing.  So the
    agent and the search services are never both called, none is called
    twice, and the model is never asked before the index. *)
Theorem handler_call_discipline
  (pf : Platform) (event context : pyval) (log : list call) :
  exists path zone,
    snd (handler pf event context log) = (log ++ path ++ zone)%list
    /\ path_calls path = true
    /\ (zone = [] \/ zone = timezone_calls).
Proof.
  rewrite handler_unfold.
  destruct (getitem event "inputTranscript") as [user_input | e].
  - destruct (path_extends_log pf event user_input log)
      as (calls & Hlog & Hshape).
    destruct (if eq_str user_input "" then _ else _)
      as [[response_text | e] log1]; cbn [snd] in Hlog; subst log1.
    + pose proof (lex_format_response_quiet event response_text
                    ((log ++ calls) ++ timezone_calls)%list) as Hquiet.
      destruct (lex_format_response event response_text _)
        as [[formatted | e] log2]; cbn [snd] in Hquiet; subst log2;
        exists calls, timezone_calls; cbn [snd];
        (split; [now rewrite app_assoc | split; [exact Hshape | now right]]).
    + exists calls, []. cbn [snd].
      split; [now rewrite app_nil_r | split; [exact Hshape | now left]].
  - exists [], []. cbn [snd].
    split; [now rewrite app_nil_r | split; [reflexivity | now left]].
Qed.

(** ** Routing *)

Lemma eq_str_true (v : pyval) (s : string) : eq_str v s = true -> v = PStr s.
Proof.
  destruct v as [| b | n | x | t | l | d]; try discriminate.
  cbn [eq_str]. intros H. apply String.eqb_eq in H. now subst.
Qed.

Lemma eq_str_false (v : pyval) (s : string) : eq_str v s = false -> v <> PStr s.
Proof.
  intros H ->. cbn [eq_str] in H. now rewrite String.eqb_refl in H.
Qed.

Section CallsOfOneKind.

Variable pf : Platform.

(** The log of the handler is the log of its path, then the two changes to
    the time zone or nothing. *)
Lemma handler_final_log (event context user_input : pyval) :
  getitem event "inputTranscript" = Ok user_input ->
  exists zone,
    snd (handler pf event context [])
    = (snd (if eq_str user_input "" then kendra_search pf user_input []
            else genai_intent pf event []) ++ zone)%list
    /\ (zone = [] \/ zone = timezone_calls).
Proof.
  intros Ht. rewrite handler_unfold, Ht.
  destruct (if eq_str user_input "" then _ else _)
    as [[response_text | e] log1]; cbn [snd].
  - pose proof (lex_format_response_quiet event response_text
                  (log1 ++ timezone_calls)%list) as Hquiet.
    destruct (lex_format_response event response_text _)
      as [[formatted | e] log2]; cbn [snd] in Hquiet; subst log2;
      exists timezone_calls; cbn [snd]; (split; [reflexivity | now right]).
  - exists []. split; [now rewrite app_nil_r | now left].
Qed.

(** The queries of the index in the log of one invocation. *)
Lemma handler_retrieve_calls (event context : pyval) :
  filter is_retrieve (snd (handler pf event context []))
  = match getitem event "inputTranscript" with
    | Ok user_input => if eq_str user_input "" then [retrieve_call] else []
    | Raise _ => []
    end.
Proof.
  destruct (getitem event "inputTranscript") as [user_input | e] eqn:Ht.
  - destruct (handler_final_log event context user_input Ht)
      as (zone & -> & Hzone).
    rewrite filter_app.
    replace (filter is_retrieve zone) with (@nil call)
      by (destruct Hzone as [-> | ->]; reflexivity).
    rewrite app_nil_r.
    destruct (eq_str user_input "").
    + destruct (kendra_search_calls pf user_input [])
        as (calls & -> & [-> | [passages ->]]); reflexivity.
    + destruct (genai_intent_calls pf event [])
        as (calls & -> & [-> | [t ->]]); reflexivity.
  - rewrite handler_unfold, Ht. reflexivity.
Qed.

(** The runs of the agent in the log of one invocation on an event of Lex. *)
Lemma handler_agent_calls (event context : pyval) (t source : string) :
  lex_event event = true ->
  getitem event "inputTranscript" = Ok (PStr t) ->
  getitem event "invocationSource" = Ok (PStr source) ->
  filter is_agent_run (snd (handler pf event context []))
  = if negb (String.eqb t "") && String.eqb source "DialogCodeHook"
    then [agent_call t] else [].
Proof.
  intros Hev Ht Hsrc.
  destruct (handler_final_log event context (PStr t) Ht)
    as (zone & -> & Hzone).
  rewrite filter_app.
  replace (filter is_agent_run zone) with (@nil call)
    by (destruct Hzone as [-> | ->]; reflexivity).
  rewrite app_nil_r. cbn [eq_str].
  destruct (String.eqb t "") eqn:Hempty; cbn [negb andb].
  - destruct (kendra_search_calls pf (PStr t) [])
      as (calls & -> & [-> | [passages ->]]); reflexivity.
  - destruct (String.eqb source "DialogCodeHook") eqn:Hhook.
    + apply String.eqb_eq in Hhook. subst source.
      destruct (genai_intent_lex_dialog pf event t Hev Ht Hsrc)
        as (session_attributes & Hgenai).
      rewrite Hgenai.
      pose proof (invoke_fm_calls pf (PStr t) []) as Hcalls.
      destruct (invoke_fm pf (PStr t) []) as [[output | e] log1];
        cbn [snd app] in Hcalls; subst log1; reflexivity.
    + now rewrite (genai_intent_lex_other pf event (PStr source) []
                     Hev Hsrc Hhook).
Qed.

End CallsOfOneKind.

Lemma existsb_filter {A : Type} (f : A -> bool) (l : list A) :
  existsb f l = true <-> filter f l <> [].
Proof.
  induction l as [| a l IH]; cbn.
  - split; [discriminate | intros H; now destruct H].
  - destruct (f a); cbn; [split; [discriminate | reflexivity] | exact IH].
Qed.

(** X3: the index is queried, with whatever arguments, exactly when the
    event has an utterance and it is the empty string: an utterance that is
    not empty, or not a string, and an event without one, lead to no query at
    all; and a query that is made is the one fixed query of [kendra_search]. *)
Theorem search_iff_empty_transcript
  (pf : Platform) (event context : pyval) :
  (existsb is_retrieve (snd (handler pf event context [])) = true
   <-> getitem event "inputTranscript" = Ok (PStr ""))
  /\ forall c,
      In c (snd (handler pf event context [])) ->
      is_retrieve c = true ->
      c = retrieve_call.
Proof.
  pose proof (handler_retrieve_calls pf event context) as Hfilter.
  split.
  - rewrite existsb_filter, Hfilter.
    destruct (getitem event "inputTranscript") as [user_input | e].
    + destruct (eq_str user_input "") eqn:Hempty.
      * apply eq_str_true in Hempty. subst user_input.
        split; [reflexivity | discriminate].
      * apply eq_str_false in Hempty.
        split; [intros H; now destruct H |].
        intros H. inversion H. contradiction.
    + split; [intros H; now destruct H | discriminate].
  - intros c Hin Hc.
    assert (Hin' : In c (filter is_retrieve (snd (handler pf event context []))))
      by (apply filter_In; now split).
    rewrite Hfilter in Hin'.
    destruct (getitem event "inputTranscript") as [user_input | e];
      [destruct (eq_str user_input "") |];
      cbn in Hin'; try contradiction.
    destruct Hin' as [<- | []]. reflexivity.
Qed.

(** ** Failures of the search path *)

Section SearchFailures.

Variable pf : Platform.

Lemma handler_search_failure
  (event context : pyval) (e : exn) (log log' : list call) :
  getitem event "inputTranscript" = Ok (PStr "") ->
  kendra_search pf (PStr "") log = (Raise e, log') ->
  handler pf event context log = (Raise e, log').
Proof.
  intros Ht Hsearch.
  rewrite handler_unfold, Ht. cbn [eq_str String.eqb].
  now rewrite Hsearch.
Qed.

End SearchFailures.

(** X4: on an event with an empty utterance, when the query of the index
    fails the handler ends with that same exception; the model is not asked,
    the time zone is not touched, and the query is the only call made. *)
Theorem retrieval_failure_stops_search
  (pf : Platform) (event context : pyval) (e : exn) (log : list call) :
  getitem event "inputTranscript" = Ok (PStr "") ->
  retrieve_answer pf = Raise e ->
  handler pf event context log = (Raise e, (log ++ [retrieve_call])%list).
Proof.
  intros Ht Hretrieve.
  apply handler_search_failure; [exact Ht |].
  now rewrite kendra_search_steps, Hretrieve.
Qed.

Lemma retrieval_failure_stops_search_witness :
  handler (Faults.with_retrieve Reference.mock (Raise Faults.throttled))
          Reference.search_event PNone []
  = (Raise Faults.throttled, ([] ++ [retrieve_call])%list).
Proof.
  apply (retrieval_failure_stops_search
           (Faults.with_retrieve Reference.mock (Raise Faults.throttled))
           Reference.search_event PNone Faults.throttled []).
  - reflexivity.
  - reflexivity.
Defined.

(** X5: on an event with an empty utterance, when the index answers and the
    request to the model fails, the handler ends with that same exception,
    after the query and the request and nothing else. *)
Theorem model_failure_propagates
  (pf : Platform) (event context passages : pyval) (e : exn)
  (log : list call) :
  getitem event "inputTranscript" = Ok (PStr "") ->
  retrieve_answer pf = Ok passages ->
  llm_answer pf (PStr "") passages = Raise e ->
  handler pf event context log
  = (Raise e,
     (log ++ [retrieve_call; llm_call pf (PStr "") passages])%list).
Proof.
  intros Ht Hretrieve Hllm.
  apply handler_search_failure; [exact Ht |].
  rewrite kendra_search_steps, Hretrieve, invoke_llm_steps, Hllm.
  now rewrite <- app_assoc.
Qed.

Lemma model_failure_propagates_witness :
  handler (Faults.with_model Reference.mock (Raise Faults.throttled))
          Reference.search_event PNone []
  = (Raise Faults.throttled,
     ([] ++ [retrieve_call;
             llm_call (Faults.with_model Reference.mock (Raise Faults.throttled))
                      (PStr "") Reference.passages])%list).
Proof.
  apply (model_failure_propagates
           (Faults.with_model Reference.mock (Raise Faults.throttled))
           Reference.search_event PNone Reference.passages
           Faults.throttled []).
  - reflexivity.
  - reflexivity.
  - reflexivity.
Defined.

(** X6: on an event with an empty utterance, when the body of the model's
    answer is not JSON, the exception of [json.loads] ends the invocation:
    no envelope is returned. *)
Theorem undecodable_body_is_fatal
  (pf : Platform) (event context passages : pyval) (raw : string) (e : exn)
  (log : list call) :
  getitem event "inputTranscript" = Ok (PStr "") ->
  retrieve_answer pf = Ok passages ->
  llm_answer pf (PStr "") passages = Ok raw ->
  json_loads pf raw = Raise e ->
  handler pf event context log
  = (Raise e,
     (log ++ [retrieve_call; llm_call pf (PStr "") passages])%list).
Proof.
  intros Ht Hretrieve Hllm Hloads.
  apply handler_search_failure; [exact Ht |].
  rewrite (kendra_search_answered pf (PStr "") passages raw log Hretrieve Hllm).
  now rewrite Hloads.
Qed.

Lemma undecodable_body_is_fatal_witness :
  handler (Reference.platform (fun _ => Ok "42") "Service Unavailable")
          Reference.search_event PNone []
  = (Raise (ValueError "JSONDecodeError"
                       "Expecting value: line 1 column 1 (char 0)"),
     ([] ++ [retrieve_call;
             llm_call (Reference.platform (fun _ => Ok "42")
                                          "Service Unavailable")
                      (PStr "") Reference.passages])%list).
Proof.
  apply (undecodable_body_is_fatal
           (Reference.platform (fun _ => Ok "42") "Service Unavailable")
           Reference.search_event PNone Reference.passages
           "Service Unavailable"
           (ValueError "JSONDecodeError"
                       "Expecting value: line 1 column 1 (char 0)") []).
  - reflexivity.
  - reflexivity.
  - reflexivity.
  - reflexivity.
Defined.

(** X7: on an event with an empty utterance, when the body of the model's
    answer is JSON but not an object (a list, a string, a number, [null]),
    the lookup of [completion] raises an [AttributeError] and the invocation
    ends with it: only an object without the field yields [None]. *)
Theorem non_object_body_is_fatal
  (pf : Platform) (event context passages body : pyval) (raw : string)
  (log : list call) :
  getitem event "inputTranscript" = Ok (PStr "") ->
  retrieve_answer pf = Ok passages ->
  llm_answer pf (PStr "") passages = Ok raw ->
  json_loads pf raw = Ok body ->
  (forall items, body <> PDict items) ->
  exists message,
    handler pf event context log
    = (Raise (AttributeError message),
       (log ++ [retrieve_call; llm_call pf (PStr "") passages])%list).
Proof.
  intros Ht Hretrieve Hllm Hloads Hshape.
  exists "object has no attribute 'get'".
  apply handler_search_failure; [exact Ht |].
  rewrite (kendra_search_answered pf (PStr "") passages raw log Hretrieve Hllm).
  rewrite Hloads.
  destruct body as [| b | n | x | s | l | items]; try reflexivity.
  now destruct (Hshape items).
Qed.

Lemma non_object_body_is_fatal_witness :
  exists message,
    handler (Faults.with_loads Reference.mock (Ok (PList [PStr "I dont know"])))
            Reference.search_event PNone []
    = (Raise (AttributeError message),
       ([] ++ [retrieve_call;
               llm_call (Faults.with_loads Reference.mock
                           (Ok (PList [PStr "I dont know"])))
                        (PStr "") Reference.passages])%list).
Proof.
  apply (non_object_body_is_fatal
           (Faults.with_loads Reference.mock (Ok (PList [PStr "I dont know"])))
           Reference.search_event PNone Reference.passages
           (PList [PStr "I dont know"]) Reference.completion_body []).
  - reflexivity.
  - reflexivity.
  - reflexivity.
  - reflexivity.
  - intros items H. discriminate H.
Defined.

(** ** When the event is checked *)

(** X8: the search path reads the rest of the event only after its calls: on
    an event with an empty utterance and no [sessionState], once the index
    and the model have answered the handler sets the time zone and only then
    fails on the missing key, with no envelope. *)
Theorem search_checks_event_after_calls
  (pf : Platform) (event context answer : pyval) (e : exn)
  (log log' : list call) :
  getitem event "inputTranscript" = Ok (PStr "") ->
  getitem event "sessionState" = Raise e ->
  kendra_search pf (PStr "") log = (Ok answer, log') ->
  handler pf event context log = (Raise e, (log' ++ timezone_calls)%list).
Proof.
  intros Ht Hstate Hsearch.
  rewrite handler_unfold, Ht. cbn [eq_str String.eqb].
  rewrite Hsearch.
  unfold lex_format_response. unfold bind at 1, lift at 1.
  now rewrite Hstate.
Qed.

Lemma search_checks_event_after_calls_witness :
  handler Reference.mock (Faults.bare_event "") PNone []
  = (Raise (KeyError "sessionState"),
     ([retrieve_call; llm_call Reference.mock (PStr "") Reference.passages]
        ++ timezone_calls)%list).
Proof.
  apply (search_checks_event_after_calls
           Reference.mock (Faults.bare_event "") PNone (PStr "I dont know")
           (KeyError "sessionState") []
           [retrieve_call;
            llm_call Reference.mock (PStr "") Reference.passages]).
  - reflexivity.
  - reflexivity.
  - reflexivity.
Defined.

(** X9: the assistant path reads the session state before anything else: on
    an event whose utterance is not the empty string and that has no
    [sessionState], the handler fails on the missing key without running the
    agent and without any other call. *)
Theorem assistant_checks_session_state_first
  (pf : Platform) (event context user_input : pyval) (e : exn)
  (log : list call) :
  getitem event "inputTranscript" = Ok user_input ->
  user_input <> PStr "" ->
  getitem event "sessionState" = Raise e ->
  handler pf event context log = (Raise e, log).
Proof.
  intros Ht Hne Hstate.
  rewrite handler_unfold, Ht.
  destruct (eq_str user_input "") eqn:Hempty.
  - apply eq_str_true in Hempty. contradiction.
  - unfold genai_intent. unfold bind at 1, lift at 1.
    now rewrite Hstate.
Qed.

Lemma assistant_checks_session_state_first_witness :
  handler Reference.mock (Faults.bare_event "What is my loan balance?") PNone []
  = (Raise (KeyError "sessionState"), []).
Proof.
  apply (assistant_checks_session_state_first
           Reference.mock (Faults.bare_event "What is my loan balance?") PNone
           (PStr "What is my loan balance?") (KeyError "sessionState") []).
  - reflexivity.
  - discriminate.
  - reflexivity.
Defined.

(** ** What the envelope keeps of the event *)

Lemma assoc_set_id (k : string) (v : pyval) (d : list (string * pyval)) :
  assoc k d = Some v -> assoc_set k v d = d.
Proof.
  induction d as [| [k' v'] d IH]; simpl.
  - discriminate.
  - destruct (String.eqb k' k) eqn:E.
    + apply String.eqb_eq in E. intros H. inversion H. now subst.
    + intros H. now rewrite IH.
Qed.

(** An envelope comes from a dict with a session identifier and a session
    state that holds an intent object, and is built from them. *)
Lemma handler_envelope_form
  (pf : Platform) (event context envelope : pyval) (log log' : list call) :
  handler pf event context log = (Ok envelope, log') ->
  exists items state intent session response_text,
    event = PDict items
    /\ assoc "sessionId" items = Some session
    /\ assoc "sessionState" items = Some (PDict state)
    /\ assoc "intent" state = Some (PDict intent)
    /\ envelope
       = close_envelope (fulfilled intent) session
           (item_or_None "requestAttributes" items) response_text.
Proof.
  rewrite handler_unfold.
  destruct (getitem event "inputTranscript") as [user_input | e];
    [| discriminate].
  destruct (if eq_str user_input "" then _ else _)
    as [[response_text | e] log1]; [| discriminate].
  destruct (lex_format_response event response_text _)
    as [[formatted | e] log2] eqn:Hfmt; [| discriminate].
  destruct (lex_format_response_inv _ _ _ _ _ Hfmt)
    as (items & state & intent & session & -> & Hid & Hstate & Hintent).
  rewrite (lex_format_response_value items state intent session response_text
             _ Hid Hstate Hintent) in Hfmt.
  inversion Hfmt; subst formatted. cbn [snd].
  intros H. inversion H; subst envelope.
  exists items, state, intent, session, response_text.
  repeat split; assumption.
Qed.

(** X10: an envelope the handler returns echoes the session identifier of the
    event, its request attributes ([None] when the event has none), and every
    field of its intent other than [state], which is the only one rewritten. *)
Theorem envelope_echoes_event
  (pf : Platform) (event context envelope : pyval) (log log' : list call) :
  handler pf event context log = (Ok envelope, log') ->
  getitem envelope "sessionId" = getitem event "sessionId"
  /\ getitem envelope "requestAttributes"
     = Ok (match getitem event "requestAttributes" with
           | Ok attributes => attributes
           | Raise _ => PNone
           end)
  /\ forall k,
      k <> "state" ->
      getpath envelope ["sessionState"; "intent"; k]
      = getpath event ["sessionState"; "intent"; k].
Proof.
  intros Hhandler.
  destruct (handler_envelope_form pf event context envelope log log' Hhandler)
    as (items & state & intent & session & response_text
        & -> & Hid & Hstate & Hintent & ->).
  split; [cbn; now rewrite Hid |].
  split.
  - cbn. unfold item_or_None.
    now destruct (assoc "requestAttributes" items).
  - intros k Hk. cbn. rewrite Hstate. cbn. rewrite Hintent. cbn.
    rewrite assoc_set_other by (intros E; now apply Hk).
    reflexivity.
Qed.

Lemma envelope_echoes_event_witness :
  getitem (close_envelope
             (fulfilled [("name", PStr "FallbackIntent");
                         ("slots", PDict []);
                         ("state", PStr "InProgress")])
             (PStr "session-2") (PDict [("channel", PStr "web")])
             (elicit_intent Faults.attributed_event (PDict []) (PStr "42")))
          "sessionId"
  = getitem Faults.attributed_event "sessionId"
  /\ getitem (close_envelope
                (fulfilled [("name", PStr "FallbackIntent");
                            ("slots", PDict []);
                            ("state", PStr "InProgress")])
                (PStr "session-2") (PDict [("channel", PStr "web")])
                (elicit_intent Faults.attributed_event (PDict []) (PStr "42")))
             "requestAttributes"
     = Ok (match getitem Faults.attributed_event "requestAttributes" with
           | Ok attributes => attributes
           | Raise _ => PNone
           end)
  /\ forall k,
      k <> "state" ->
      getpath (close_envelope
                 (fulfilled [("name", PStr "FallbackIntent");
                             ("slots", PDict []);
                             ("state", PStr "InProgress")])
                 (PStr "session-2") (PDict [("channel", PStr "web")])
                 (elicit_intent Faults.attributed_event (PDict [])
                    (PStr "42")))
              ["sessionState"; "intent"; k]
      = getpath Faults.attributed_event ["sessionState"; "intent"; k].
Proof.
  apply (envelope_echoes_event
           Reference.mock Faults.attributed_event PNone
           (close_envelope
              (fulfilled [("name", PStr "FallbackIntent");
                          ("slots", PDict []);
                          ("state", PStr "InProgress")])
              (PStr "session-2") (PDict [("channel", PStr "web")])
              (elicit_intent Faults.attributed_event (PDict []) (PStr "42")))
           []
           (agent_call "What is my loan balance?" :: timezone_calls)).
  reflexivity.
Defined.

(** ** The assignment inside the event *)

(** X11: [lex_format_response] changes one thing in the event it is given,
    the [state] of its intent, which becomes [Fulfilled]: every other item of
    the event, of its session state and of its intent is as before; and the
    intent of the envelope is the intent of the event after the assignment. *)
Theorem lex_format_response_changes_state_only
  (event event' envelope txt : pyval) (log log' : list call) :
  lex_format_response event txt log = (Ok (event', envelope), log') ->
  (forall k, k <> "sessionState" -> getitem event' k = getitem event k)
  /\ (forall k,
        k <> "intent" ->
        getpath event' ["sessionState"; k] = getpath event ["sessionState"; k])
  /\ (forall k,
        k <> "state" ->
        getpath event' ["sessionState"; "intent"; k]
        = getpath event ["sessionState"; "intent"; k])
  /\ getpath event' ["sessionState"; "intent"; "state"] = Ok (PStr "Fulfilled")
  /\ getpath envelope ["sessionState"; "intent"]
     = getpath event' ["sessionState"; "intent"].
Proof.
  intros Hfmt.
  destruct (lex_format_response_inv _ _ _ _ _ Hfmt)
    as (items & state & intent & session & -> & Hid & Hstate & Hintent).
  rewrite (lex_format_response_value items state intent session txt
             _ Hid Hstate Hintent) in Hfmt.
  inversion Hfmt; subst event' envelope log'.
  unfold marked_event, fulfilled, close_envelope.
  split.
  { intros k Hk. cbn.
    rewrite assoc_set_other by (intros E; now apply Hk). reflexivity. }
  split.
  { intros k Hk. cbn. rewrite assoc_set_same, Hstate. cbn.
    rewrite assoc_set_other by (intros E; now apply Hk). reflexivity. }
  split.
  { intros k Hk. cbn. rewrite assoc_set_same, Hstate. cbn.
    rewrite assoc_set_same, Hintent. cbn.
    rewrite assoc_set_other by (intros E; now apply Hk). reflexivity. }
  split.
  { cbn. rewrite assoc_set_same. cbn. rewrite assoc_set_same. cbn.
    now rewrite assoc_set_same. }
  cbn. rewrite assoc_set_same. cbn. now rewrite assoc_set_same.
Qed.

(** X12: [lex_format_response] is idempotent: applied to the event it has
    already marked, with the same text, it returns the same envelope and
    leaves the event as it is. *)
Theorem lex_format_response_idempotent
  (event event' envelope txt : pyval) (log log' : list call) :
  lex_format_response event txt log = (Ok (event', envelope), log') ->
  lex_format_response event' txt log' = (Ok (event', envelope), log').
Proof.
  intros Hfmt.
  destruct (lex_format_response_inv _ _ _ _ _ Hfmt)
    as (items & state & intent & session & -> & Hid & Hstate & Hintent).
  rewrite (lex_format_response_value items state intent session txt
             _ Hid Hstate Hintent) in Hfmt.
  inversion Hfmt; subst event' envelope log'.
  set (intent' := assoc_set "state" (PStr "Fulfilled") intent).
  set (state' := assoc_set "intent" (PDict intent') state).
  set (items' := assoc_set "sessionState" (PDict state') items).
  assert (Hid' : assoc "sessionId" items' = Some session).
  { unfold items'. now rewrite assoc_set_other by discriminate. }
  assert (Hstate' : assoc "sessionState" items' = Some (PDict state')).
  { unfold items'. apply assoc_set_same. }
  assert (Hintent' : assoc "intent" state' = Some (PDict intent')).
  { unfold state'. apply assoc_set_same. }
  change (marked_event items state intent) with (PDict items').
  rewrite (lex_format_response_value items' state' intent' session txt
             log Hid' Hstate' Hintent').
  assert (Hfulfilled : fulfilled intent' = fulfilled intent).
  { unfold fulfilled. fold intent'. f_equal.
    apply assoc_set_id. unfold intent'. apply assoc_set_same. }
  assert (Hmarked : marked_event items' state' intent' = PDict items').
  { unfold marked_event. rewrite Hfulfilled. unfold fulfilled. fold intent'.
    rewrite (assoc_set_id "intent" (PDict intent') state' Hintent').
    now rewrite (assoc_set_id "sessionState" (PDict state') items' Hstate'). }
  assert (Hattributes : item_or_None "requestAttributes" items'
                        = item_or_None "requestAttributes" items).
  { unfold item_or_None, items'. now rewrite assoc_set_other by discriminate. }
  now rewrite Hfulfilled, Hmarked, Hattributes.
Qed.

Lemma lex_format_response_changes_state_only_witness :
  (forall k,
      k <> "sessionState" ->
      getitem Faults.marked_loan_event k = getitem Reference.loan_event k)
  /\ (forall k,
        k <> "intent" ->
        getpath Faults.marked_loan_event ["sessionState"; k]
        = getpath Reference.loan_event ["sessionState"; k])
  /\ (forall k,
        k <> "state" ->
        getpath Faults.marked_loan_event ["sessionState"; "intent"; k]
        = getpath Reference.loan_event ["sessionState"; "intent"; k])
  /\ getpath Faults.marked_loan_event ["sessionState"; "intent"; "state"]
     = Ok (PStr "Fulfilled")
  /\ getpath (Faults.loan_envelope (PStr "42")) ["sessionState"; "intent"]
     = getpath Faults.marked_loan_event ["sessionState"; "intent"].
Proof.
  apply (lex_format_response_changes_state_only
           Reference.loan_event Faults.marked_loan_event
           (Faults.loan_envelope (PStr "42")) (PStr "42") [] []).
  reflexivity.
Defined.

Lemma lex_format_response_idempotent_witness :
  lex_format_response Faults.marked_loan_event (PStr "42") []
  = (Ok (Faults.marked_loan_event, Faults.loan_envelope (PStr "42")), []).
Proof.
  apply (lex_format_response_idempotent
           Reference.loan_event Faults.marked_loan_event
           (Faults.loan_envelope (PStr "42")) (PStr "42") [] []).
  reflexivity.
Defined.

(** ** The assistant path, further *)

(** X13: on an event of Lex from the dialog code hook, the elicit-intent
    response of [genai_intent] carries the session attributes of the event
    when they are there and not empty, and an empty dict otherwise (no
    [sessionAttributes] key, [None], or an empty dict); its dialog action is
    [ElicitIntent] and its first message is the answer of [invoke_fm]. *)
Theorem elicit_response_session_attributes
  (pf : Platform) (event output : pyval) (t : string) (log log' : list call) :
  lex_event event = true ->
  getitem event "inputTranscript" = Ok (PStr t) ->
  getitem event "invocationSource" = Ok (PStr "DialogCodeHook") ->
  invoke_fm pf (PStr t) log = (Ok output, log') ->
  exists response rest,
    genai_intent pf event log = (Ok response, log')
    /\ getpath response ["sessionState"; "sessionAttributes"]
       = Ok (match getpath event ["sessionState"; "sessionAttributes"] with
             | Ok attributes => if truthy attributes then attributes
                                else PDict []
             | Raise _ => PDict []
             end)
    /\ getpath response ["sessionState"; "dialogAction"; "type"]
       = Ok (PStr "ElicitIntent")
    /\ getitem response "messages"
       = Ok (PList (PDict [("contentType", PStr "PlainText");
                           ("content", output)] :: rest)).
Proof.
  intros Hev Ht Hsrc Hfm.
  destruct (lex_event_fields event Hev)
    as (items & t0 & src & sid & st & it & -> & _ & _ & Hid & Hst & Hit).
  apply getitem_dict_inv in Ht. apply getitem_dict_inv in Hsrc.
  rewrite (genai_intent_dialog pf items st t log Ht Hsrc Hst), Hfm.
  eexists. eexists.
  split; [reflexivity |].
  split.
  - cbn. rewrite Hst. cbn. unfold item_or_None, py_or.
    destruct (assoc "sessionAttributes" st) as [attributes |]; reflexivity.
  - split; reflexivity.
Qed.

Lemma elicit_response_session_attributes_witness :
  exists response rest,
    genai_intent Reference.mock Faults.attributed_event []
    = (Ok response, [agent_call "What is my loan balance?"])
    /\ getpath response ["sessionState"; "sessionAttributes"]
       = Ok (match getpath Faults.attributed_event
                     ["sessionState"; "sessionAttributes"] with
             | Ok attributes => if truthy attributes then attributes
                                else PDict []
             | Raise _ => PDict []
             end)
    /\ getpath response ["sessionState"; "dialogAction"; "type"]
       = Ok (PStr "ElicitIntent")
    /\ getitem response "messages"
       = Ok (PList (PDict [("contentType", PStr "PlainText");
                           ("content", PStr "42")] :: rest)).
Proof.
  apply (elicit_response_session_attributes
           Reference.mock Faults.attributed_event (PStr "42")
           "What is my loan balance?" []
           [agent_call "What is my loan balance?"]).
  - reflexivity.
  - reflexivity.
  - reflexivity.
  - reflexivity.
Defined.

(** X14: [invoke_fm] tests the message of a [ValueError] against
    [Could not parse LLM output:] but strips that prefix followed by a space
    and a backtick.  When the message passes the test without the space and
    the backtick, and does not end with a backtick, nothing is stripped: the
    whole message of the exception, prefix included, is returned as the
    answer. *)
Theorem parse_failure_without_backtick_keeps_message
  (pf : Platform) (t cls message : string) (log : list call) :
  agent_answer pf t = Raise (ValueError cls message) ->
  startswith message "Could not parse LLM output:" = true ->
  startswith message "Could not parse LLM output: `" = false ->
  endswith message "`" = false ->
  invoke_fm pf (PStr t) log
  = (Ok (PStr message), (log ++ [agent_call t])%list).
Proof.
  intros Hagent Htest Hstrip Hend.
  rewrite invoke_fm_str, Hagent, Htest.
  unfold removeprefix. rewrite Hstrip.
  unfold removesuffix. rewrite Hend.
  reflexivity.
Qed.

Lemma parse_failure_without_backtick_keeps_message_witness :
  invoke_fm
    (Faults.with_agent Reference.mock
       (Raise (ValueError "OutputParserException"
                 "Could not parse LLM output: I should look up the balance")))
    (PStr "What is my loan balance?") []
  = (Ok (PStr "Could not parse LLM output: I should look up the balance"),
     ([] ++ [agent_call "What is my loan balance?"])%list).
Proof.
  apply (parse_failure_without_backtick_keeps_message
           (Faults.with_agent Reference.mock
              (Raise (ValueError "OutputParserException"
                        "Could not parse LLM output: I should look up the balance")))
           "What is my loan balance?" "OutputParserException"
           "Could not parse LLM output: I should look up the balance" []).
  - reflexivity.
  - reflexivity.
  - reflexivity.
  - reflexivity.
Defined.

(** X15: on an event of Lex, the agent is run, on whatever prompt, exactly
    when the utterance is not empty and the invocation source is
    [DialogCodeHook]; and a run that is made is the one run on the prompt of
    the utterance. *)
Theorem agent_runs_iff_dialog_utterance
  (pf : Platform) (event context : pyval) (t source : string) :
  lex_event event = true ->
  getitem event "inputTranscript" = Ok (PStr t) ->
  getitem event "invocationSource" = Ok (PStr source) ->
  (existsb is_agent_run (snd (handler pf event context [])) = true
   <-> t <> "" /\ source = "DialogCodeHook")
  /\ forall c,
      In c (snd (handler pf event context [])) ->
      is_agent_run c = true ->
      c = agent_call t.
Proof.
  intros Hev Ht Hsrc.
  pose proof (handler_agent_calls pf event context t source Hev Ht Hsrc)
    as Hfilter.
  split.
  - rewrite existsb_filter, Hfilter.
    destruct (String.eqb t "") eqn:Hempty; cbn [negb andb].
    + apply String.eqb_eq in Hempty.
      split; [intros H; now destruct H | intros [H _]; contradiction].
    + apply String.eqb_neq in Hempty.
      destruct (String.eqb source "DialogCodeHook") eqn:Hhook.
      * apply String.eqb_eq in Hhook.
        split; [intros _; now split | discriminate].
      * apply String.eqb_neq in Hhook.
        split; [intros H; now destruct H | intros [_ H]; contradiction].
  - intros c Hin Hc.
    assert (Hin' : In c (filter is_agent_run
                           (snd (handler pf event context []))))
      by (apply filter_In; now split).
    rewrite Hfilter in Hin'.
    destruct (negb (String.eqb t "") && String.eqb source "DialogCodeHook");
      cbn in Hin'; [| contradiction].
    destruct Hin' as [<- | []]. reflexivity.
Qed.

Lemma agent_runs_iff_dialog_utterance_witness :
  (existsb is_agent_run
     (snd (handler Reference.mock Reference.loan_event PNone [])) = true
   <-> "What is my loan balance?" <> "" /\ "DialogCodeHook" = "DialogCodeHook")
  /\ forall c,
      In c (snd (handler Reference.mock Reference.loan_event PNone [])) ->
      is_agent_run c = true ->
      c = agent_call "What is my loan balance?".
Proof.
  apply (agent_runs_iff_dialog_utterance
           Reference.mock Reference.loan_event PNone
           "What is my loan balance?" "DialogCodeHook").
  - reflexivity.
  - reflexivity.
  - reflexivity.
Defined.

(** ** The search path, further *)

(** X16: the search path takes nothing from the event: two events of Lex with
    an empty utterance, whatever their session, intent, attributes and
    invocation source, lead to the same calls, and to the same messages in
    the envelope or to the same exception. *)
Theorem search_ignores_event
  (pf : Platform) (event1 event2 context1 context2 : pyval)
  (log : list call) :
  lex_event event1 = true ->
  lex_event event2 = true ->
  getitem event1 "inputTranscript" = Ok (PStr "") ->
  getitem event2 "inputTranscript" = Ok (PStr "") ->
  snd (handler pf event1 context1 log) = snd (handler pf event2 context2 log)
  /\ match fst (handler pf event1 context1 log),
           fst (handler pf event2 context2 log) with
     | Ok envelope1, Ok envelope2 =>
         getitem envelope1 "messages" = getitem envelope2 "messages"
     | Raise e1, Raise e2 => e1 = e2
     | _, _ => False
     end.
Proof.
  intros Hev1 Hev2 Ht1 Ht2.
  destruct (handler_lex_event pf event1 "" Hev1 Ht1)
    as (intent1 & session1 & attributes1 & Hhandler1).
  destruct (handler_lex_event pf event2 "" Hev2 Ht2)
    as (intent2 & session2 & attributes2 & Hhandler2).
  rewrite Hhandler1, Hhandler2. cbn [String.eqb].
  destruct (kendra_search pf (PStr "") log) as [[response_text | e] log1];
    split; reflexivity.
Qed.

Lemma search_ignores_event_witness :
  snd (handler Reference.mock Reference.search_event PNone [])
  = snd (handler Reference.mock
           (Reference.event_of "" "FulfillmentCodeHook") (PStr "context") [])
  /\ match fst (handler Reference.mock Reference.search_event PNone []),
           fst (handler Reference.mock
                  (Reference.event_of "" "FulfillmentCodeHook")
                  (PStr "context") []) with
     | Ok envelope1, Ok envelope2 =>
         getitem envelope1 "messages" = getitem envelope2 "messages"
     | Raise e1, Raise e2 => e1 = e2
     | _, _ => False
     end.
Proof.
  apply (search_ignores_event
           Reference.mock Reference.search_event
           (Reference.event_of "" "FulfillmentCodeHook")
           PNone (PStr "context") []).
  - reflexivity.
  - reflexivity.
  - reflexivity.
  - reflexivity.
Defined.

(** ** A parse failure, end to end *)

(** X17: on an event of Lex from the dialog code hook with a non-empty
    utterance, a [ValueError] of the agent whose message is
    [Could not parse LLM output: `ANSWER`] does not end the invocation: after
    the one run of the agent the handler sets the time zone and returns an
    envelope, and [ANSWER] is the content of the first message of the
    elicit-intent response that the envelope carries. *)
Theorem handler_recovers_parse_failure
  (pf : Platform) (event context : pyval) (t cls answer : string)
  (log : list call) :
  lex_event event = true ->
  getitem event "inputTranscript" = Ok (PStr t) ->
  t <> "" ->
  getitem event "invocationSource" = Ok (PStr "DialogCodeHook") ->
  agent_answer pf t
  = Raise (ValueError cls ("Could not parse LLM output: `" ++ answer ++ "`")) ->
  exists envelope response rest,
    handler pf event context log
    = (Ok envelope, (log ++ agent_call t :: timezone_calls)%list)
    /\ getitem envelope "messages"
       = Ok (PList [PDict [("contentType", PStr "PlainText");
                           ("content", response)]])
    /\ getitem response "messages"
       = Ok (PList (PDict [("contentType", PStr "PlainText");
                           ("content", PStr answer)] :: rest)).
Proof.
  intros Hev Ht Hne Hsrc Hagent.
  destruct (handler_lex_event pf event t Hev Ht)
    as (intent & session & attributes & Hhandler).
  destruct (genai_intent_lex_dialog pf event t Hev Ht Hsrc)
    as (session_attributes & Hgenai).
  rewrite Hhandler, (eqb_nonempty t Hne), Hgenai, invoke_fm_str, Hagent.
  change (startswith ("Could not parse LLM output: `" ++ answer ++ "`")
                     "Could not parse LLM output:") with true.
  cbv iota.
  rewrite removeprefix_append, removesuffix_append by discriminate.
  eexists. eexists. eexists.
  split; [now rewrite <- app_assoc |].
  split; reflexivity.
Qed.

Lemma handler_recovers_parse_failure_witness :
  exists envelope response rest,
    handler
      (Faults.with_agent Reference.mock
         (Raise (ValueError "OutputParserException"
                   "Could not parse LLM output: `Your balance is 42`")))
      Reference.loan_event PNone []
    = (Ok envelope,
       ([] ++ agent_call "What is my loan balance?" :: timezone_calls)%list)
    /\ getitem envelope "messages"
       = Ok (PList [PDict [("contentType", PStr "PlainText");
                           ("content", response)]])
    /\ getitem response "messages"
       = Ok (PList (PDict [("contentType", PStr "PlainText");
                           ("content", PStr "Your balance is 42")] :: rest)).
Proof.
  apply (handler_recovers_parse_failure
           (Faults.with_agent Reference.mock
              (Raise (ValueError "OutputParserException"
                        "Could not parse LLM output: `Your balance is 42`")))
           Reference.loan_event PNone "What is my loan balance?"
           "OutputParserException" "Your balance is 42" []).
  - reflexivity.
  - reflexivity.
  - discriminate.
  - reflexivity.
  - reflexivity.
Defined.
